(** * API notes data types (include/swift/APINotes/Types.h)

  A shallow embedding of the three annotation records of the API notes
  data model, [ObjCClassInfo], [ObjCPropertyInfo] and [ObjCMethodInfo],
  together with the properties of their accessors.

  Conventions.
  - An [unsigned] is a 32-bit word and a [uint64_t] a 64-bit word; both
    are carried as [Z], and every store into a narrower object writes the
    reduction modulo the object's width ([wrap]).
  - A bit-field [unsigned f : w] is a [Z] field; assignments to it go
    through [wrap w].
  - [assert] is live (a build without NDEBUG): a failed assertion ends the
    call with [AssertFailed].
  - A shift whose count is not below the width of its (promoted) left
    operand has no behaviour defined by the language; the call ends with
    [Undefined]. *)

From Stdlib Require Import ZArith Bool List Finite Permutation String Lia.
Import ListNotations.

Local Open Scope Z_scope.

(** ** Machine words *)

Definition unsigned_bits : Z := 32.
Definition uint64_bits : Z := 64.
Definition CHAR_BIT : Z := 8.

(** The value held by a [w]-bit unsigned object after [x] is stored in it. *)
Definition wrap (w x : Z) : Z := x mod 2 ^ w.

(** [a * b] on two [unsigned] operands. *)
Definition mul_unsigned (a b : Z) : Z := wrap unsigned_bits (a * b).

(** [a + b] on two [unsigned] operands. *)
Definition add_unsigned (a b : Z) : Z := wrap unsigned_bits (a + b).

(** [x << n] on an [unsigned] left operand: defined only for a count below
    the operand's width, and then reduced modulo [2 ^ 32]. *)
Definition shl_unsigned (x n : Z) : option Z :=
  if n <? unsigned_bits then Some (wrap unsigned_bits (Z.shiftl x n)) else None.

(** [x >> n] on a [uint64_t] left operand. *)
Definition shr_uint64 (x n : Z) : option Z :=
  if n <? uint64_bits then Some (Z.shiftr x n) else None.

(** ** Results of calls that carry assertions or shifts *)

Inductive outcome (A : Type) : Type :=
| Done (a : A)
| AssertFailed
| Undefined.

Arguments Done {A} a.
Arguments AssertFailed {A}.
Arguments Undefined {A}.

Definition bind {A B : Type} (o : outcome A) (k : A -> outcome B) : outcome B :=
  match o with
  | Done a => k a
  | AssertFailed => AssertFailed
  | Undefined => Undefined
  end.

Declare Scope outcome_scope.
Delimit Scope outcome_scope with outcome.
Notation "x <- o ;; k" := (bind o (fun x => k))
  (at level 61, o at next level, right associativity) : outcome_scope.

(** ** Enumerations *)

Module NullableKind.

(** [enum class NullableKind : unsigned].  The underlying type is fixed,
    so a value of the type need not be one of the three enumerators.
    Every [static_cast<NullableKind>] of this header is applied to a
    2-bit quantity; [Raw3] is the one value such a cast can yield that
    has no enumerator. *)
Inductive t : Set :=
| NonNullable
| Nullable
| Unknown
| Raw3.

(** [static_cast<unsigned>(kind)] *)
Definition to_unsigned (kind : t) : Z :=
  match kind with
  | NonNullable => 0
  | Nullable => 1
  | Unknown => 2
  | Raw3 => 3
  end.

(** [static_cast<NullableKind>(bits)], for a 2-bit quantity [bits]. *)
Definition of_unsigned (bits : Z) : t :=
  match bits with
  | 0 => NonNullable
  | 1 => Nullable
  | 2 => Unknown
  | _ => Raw3
  end.

(** The values that have an enumerator. *)
Definition is_enumerator (kind : t) : bool :=
  match kind with
  | Raw3 => false
  | _ => true
  end.

End NullableKind.

Module FactoryAsInitKind.

Inductive t : Set :=
| Infer
| AsClassMethod
| AsInitializer.

Definition to_unsigned (kind : t) : Z :=
  match kind with
  | Infer => 0
  | AsClassMethod => 1
  | AsInitializer => 2
  end.

(** [static_cast<FactoryAsInitKind>(bits)]: the enumerator that [bits]
    names, or [bits] itself when it names none (the enumeration is scoped,
    so every value of its underlying type is a value of the type). *)
Definition of_unsigned (bits : Z) : t + Z :=
  match bits with
  | 0 => inl Infer
  | 1 => inl AsClassMethod
  | 2 => inl AsInitializer
  | _ => inr bits
  end.

End FactoryAsInitKind.

(** ** ObjCClassInfo *)

Module ObjCClassInfo.

Record t : Set := mk {
  HasDefaultNullability : Z;   (* unsigned : 1 *)
  DefaultNullability : Z       (* unsigned : 2 *)
}.

(** [ObjCClassInfo()] *)
Definition ctor : t :=
  {| HasDefaultNullability := wrap 1 0;
     DefaultNullability := wrap 2 0 |}.

Definition getDefaultNullability (c : t) : option NullableKind.t :=
  if negb (HasDefaultNullability c =? 0)
  then Some (NullableKind.of_unsigned (DefaultNullability c))
  else None.

Definition setDefaultNullability (kind : NullableKind.t) (c : t) : t :=
  {| HasDefaultNullability := wrap 1 1;
     DefaultNullability := wrap 2 (NullableKind.to_unsigned kind) |}.

(** [operator==] *)
Definition eqb (lhs rhs : t) : bool :=
  (HasDefaultNullability lhs =? HasDefaultNullability rhs)
  && (DefaultNullability lhs =? DefaultNullability rhs).

(** [operator!=] *)
Definition neqb (lhs rhs : t) : bool := negb (eqb lhs rhs).

(** Both fields are private: an instance is what the constructor built
    and the one mutator changed. *)
Inductive reachable : t -> Prop :=
| reachable_ctor : reachable ctor
| reachable_set (kind : NullableKind.t) (c : t) :
    reachable c -> reachable (setDefaultNullability kind c).

End ObjCClassInfo.

(** ** ObjCPropertyInfo *)

Module ObjCPropertyInfo.

Record t : Set := mk {
  NullabilityAudited : Z;   (* unsigned : 1 *)
  Nullable : Z              (* unsigned : 2 *)
}.

(** [ObjCPropertyInfo()] *)
Definition ctor : t :=
  {| NullabilityAudited := wrap 1 0;
     Nullable := wrap 2 0 |}.

Definition getNullability (p : t) : option NullableKind.t :=
  if negb (NullabilityAudited p =? 0)
  then Some (NullableKind.of_unsigned (Nullable p))
  else None.

Definition setNullabilityAudited (kind : NullableKind.t) (p : t) : t :=
  {| NullabilityAudited := wrap 1 1;
     Nullable := wrap 2 (NullableKind.to_unsigned kind) |}.

(** [operator==] *)
Definition eqb (lhs rhs : t) : bool :=
  (NullabilityAudited lhs =? NullabilityAudited rhs)
  && (Nullable lhs =? Nullable rhs).

(** [operator!=] *)
Definition neqb (lhs rhs : t) : bool := negb (eqb lhs rhs).

Inductive reachable : t -> Prop :=
| reachable_ctor : reachable ctor
| reachable_set (kind : NullableKind.t) (p : t) :
    reachable p -> reachable (setNullabilityAudited kind p).

End ObjCPropertyInfo.

(** ** ObjCMethodInfo *)

Module ObjCMethodInfo.

Definition NullableKindMask : Z := 3.
Definition NullableKindSize : Z := 2.

Record t : Set := mk {
  DesignatedInit : Z;        (* unsigned : 1 *)
  FactoryAsInit : Z;         (* unsigned : 2 *)
  Unavailable : Z;           (* unsigned : 1 *)
  NullabilityAudited : Z;    (* unsigned : 1 *)
  NumAdjustedNullable : Z;   (* unsigned : 8 *)
  NullabilityPayload : Z;    (* uint64_t *)
  UnavailableMsg : string    (* std::string *)
}.

(** [sizeof(NullabilityPayload)] *)
Definition sizeof_NullabilityPayload : Z := 8.

(** [ObjCMethodInfo()], with the default member initializer of
    [NullabilityPayload]. *)
Definition ctor : t :=
  {| DesignatedInit := wrap 1 0;
     FactoryAsInit := wrap 2 (FactoryAsInitKind.to_unsigned FactoryAsInitKind.Infer);
     Unavailable := wrap 1 0;
     NullabilityAudited := wrap 1 0;
     NumAdjustedNullable := wrap 8 0;
     NullabilityPayload := 0;
     UnavailableMsg := EmptyString |}.

(** The data members are public; these are the plain assignments
    [m.Field = v] that client code performs. *)
Definition set_DesignatedInit (v : Z) (m : t) : t :=
  mk (wrap 1 v) (FactoryAsInit m) (Unavailable m) (NullabilityAudited m)
     (NumAdjustedNullable m) (NullabilityPayload m) (UnavailableMsg m).

Definition set_FactoryAsInit (v : Z) (m : t) : t :=
  mk (DesignatedInit m) (wrap 2 v) (Unavailable m) (NullabilityAudited m)
     (NumAdjustedNullable m) (NullabilityPayload m) (UnavailableMsg m).

Definition set_Unavailable (v : Z) (m : t) : t :=
  mk (DesignatedInit m) (FactoryAsInit m) (wrap 1 v) (NullabilityAudited m)
     (NumAdjustedNullable m) (NullabilityPayload m) (UnavailableMsg m).

Definition set_NullabilityAudited (v : Z) (m : t) : t :=
  mk (DesignatedInit m) (FactoryAsInit m) (Unavailable m) (wrap 1 v)
     (NumAdjustedNullable m) (NullabilityPayload m) (UnavailableMsg m).

Definition set_NumAdjustedNullable (v : Z) (m : t) : t :=
  mk (DesignatedInit m) (FactoryAsInit m) (Unavailable m) (NullabilityAudited m)
     (wrap 8 v) (NullabilityPayload m) (UnavailableMsg m).

Definition set_NullabilityPayload (v : Z) (m : t) : t :=
  mk (DesignatedInit m) (FactoryAsInit m) (Unavailable m) (NullabilityAudited m)
     (NumAdjustedNullable m) (wrap uint64_bits v) (UnavailableMsg m).

Definition set_UnavailableMsg (v : string) (m : t) : t :=
  mk (DesignatedInit m) (FactoryAsInit m) (Unavailable m) (NullabilityAudited m)
     (NumAdjustedNullable m) (NullabilityPayload m) v.

Definition setFactoryAsInitKind (kind : FactoryAsInitKind.t) (m : t) : t :=
  set_FactoryAsInit (FactoryAsInitKind.to_unsigned kind) m.

Definition getFactoryAsInitKind (m : t) : FactoryAsInitKind.t + Z :=
  FactoryAsInitKind.of_unsigned (FactoryAsInit m).

(** [NullabilityPayload |= kindValue], [kindValue] an [unsigned] converted
    to [uint64_t]. *)
Definition or_kindValue (kindValue : Z) (m : t) : t :=
  mk (DesignatedInit m) (FactoryAsInit m) (Unavailable m) (NullabilityAudited m)
     (NumAdjustedNullable m) (Z.lor (NullabilityPayload m) kindValue)
     (UnavailableMsg m).

Definition addTypeInfo (index : Z) (kind : NullableKind.t) (m : t) : outcome t :=
  if negb (index <=? (sizeof_NullabilityPayload * CHAR_BIT) / NullableKindSize)
  then AssertFailed
  else if negb (NullableKind.to_unsigned kind <? NullableKindMask)
  then AssertFailed
  else if NullabilityAudited m =? 0
  then AssertFailed
  else
    match shl_unsigned (NullableKind.to_unsigned kind)
                       (mul_unsigned index NullableKindSize) with
    | Some kindValue => Done (or_kindValue kindValue m)
    | None => Undefined
    end.

Definition getTypeInfo (index : Z) (m : t) : outcome NullableKind.t :=
  if NullabilityAudited m =? 0
  then AssertFailed
  else if NumAdjustedNullable m <? index
  then Done NullableKind.NonNullable
  else
    match shr_uint64 (NullabilityPayload m)
                     (mul_unsigned index NullableKindSize) with
    | Some shifted =>
        Done (NullableKind.of_unsigned (Z.land shifted NullableKindMask))
    | None => Undefined
    end.

Definition getParamTypeInfo (index : Z) (m : t) : outcome NullableKind.t :=
  getTypeInfo (add_unsigned index 1) m.

Definition getReturnTypeInfo (m : t) : outcome NullableKind.t :=
  getTypeInfo 0 m.

(** [operator==] *)
Definition eqb (lhs rhs : t) : bool :=
  (DesignatedInit lhs =? DesignatedInit rhs)
  && (FactoryAsInit lhs =? FactoryAsInit rhs)
  && (Unavailable lhs =? Unavailable rhs)
  && (NullabilityAudited lhs =? NullabilityAudited rhs)
  && (NumAdjustedNullable lhs =? NumAdjustedNullable rhs)
  && (NullabilityPayload lhs =? NullabilityPayload rhs)
  && String.eqb (UnavailableMsg lhs) (UnavailableMsg rhs).

(** [operator!=] *)
Definition neqb (lhs rhs : t) : bool := negb (eqb lhs rhs).

End ObjCMethodInfo.

(** ** Call sequences on the records with private fields *)

(** [ObjCClassInfo()] followed by one [setDefaultNullability] call per
    entry of [kinds], in list order. *)
Definition class_after_calls (kinds : list NullableKind.t) : ObjCClassInfo.t :=
  fold_left (fun c kind => ObjCClassInfo.setDefaultNullability kind c)
            kinds ObjCClassInfo.ctor.

(** [ObjCPropertyInfo()] followed by one [setNullabilityAudited] call per
    entry of [kinds], in list order. *)
Definition property_after_calls (kinds : list NullableKind.t) : ObjCPropertyInfo.t :=
  fold_left (fun p kind => ObjCPropertyInfo.setNullabilityAudited kind p)
            kinds ObjCPropertyInfo.ctor.

(** ** Sample method records *)

(** A record on which only [NullabilityAudited = true] was performed. *)
Definition audited_method : ObjCMethodInfo.t :=
  ObjCMethodInfo.set_NullabilityAudited 1 ObjCMethodInfo.ctor.

(** An audited record whose count covers all 32 positions of the payload. *)
Definition audited_method_31 : ObjCMethodInfo.t :=
  ObjCMethodInfo.set_NumAdjustedNullable 31 audited_method.

(** An audited record with no adjusted parameter whose return type was
    recorded as nullable: the payload is [1]. *)
Definition nullable_return_method : ObjCMethodInfo.t :=
  ObjCMethodInfo.or_kindValue 1 audited_method.

(** An audited designated initializer, unavailable with a message, with
    two positions covered and a payload of 5 ([Nullable] at positions 0
    and 1), set up through the public data members. *)
Definition busy_method : ObjCMethodInfo.t :=
  ObjCMethodInfo.set_NullabilityPayload 5
    (ObjCMethodInfo.set_NumAdjustedNullable 2
       (ObjCMethodInfo.set_NullabilityAudited 1
          (ObjCMethodInfo.set_UnavailableMsg "use init(value:)"%string
             (ObjCMethodInfo.set_Unavailable 1
                (ObjCMethodInfo.setFactoryAsInitKind FactoryAsInitKind.AsInitializer
                   (ObjCMethodInfo.set_DesignatedInit 1 ObjCMethodInfo.ctor)))))).

(** The largest value of an [unsigned]. *)
Definition UINT_MAX : Z := 2 ^ unsigned_bits - 1.

(** ** Write sequences on a method record *)

(** A run of [addTypeInfo] calls, one per entry, in list order. *)
Fixpoint addTypeInfos (writes : list (Z * NullableKind.t)) (m : ObjCMethodInfo.t)
  : outcome ObjCMethodInfo.t :=
  match writes with
  | [] => Done m
  | (index, kind) :: rest =>
      (m' <- ObjCMethodInfo.addTypeInfo index kind m ;; addTypeInfos rest m')%outcome
  end.

(** The field of the payload that belongs to position [index]. *)
Definition payload_field (index : Z) (payload : Z) : Z :=
  Z.land (Z.shiftr payload (index * ObjCMethodInfo.NullableKindSize))
         ObjCMethodInfo.NullableKindMask.

(** What a run of [addTypeInfo] calls ORs into the field of position [p]. *)
Fixpoint written (writes : list (Z * NullableKind.t)) (p : Z) : Z :=
  match writes with
  | [] => 0
  | (index, kind) :: rest =>
      Z.lor (if p =? index then NullableKind.to_unsigned kind else 0)
            (written rest p)
  end.

(** The positions a run of calls may address without leaving the 32 bits
    of [kindValue], with enumerators only. *)
Definition low_write (w : Z * NullableKind.t) : Prop :=
  0 <= fst w < 16 /\ NullableKind.is_enumerator (snd w) = true.

(** A choice of enumerators in which neighbouring positions differ. *)
Definition kind_at (index : Z) : NullableKind.t :=
  match index mod 3 with
  | 0 => NullableKind.Nullable
  | 1 => NullableKind.Unknown
  | _ => NullableKind.NonNullable
  end.

(** One write per position, from position 0 up to position [last]. *)
Definition writes_upto (last : nat) : list (Z * NullableKind.t) :=
  map (fun i => (Z.of_nat i, kind_at (Z.of_nat i))) (seq 0 (S last)).

(** * Properties *)

(** ** Casts between [NullableKind] and its underlying type *)

Lemma of_to_unsigned (kind : NullableKind.t) :
  NullableKind.of_unsigned (NullableKind.to_unsigned kind) = kind.
Proof. destruct kind; reflexivity. Qed.

Lemma to_unsigned_range (kind : NullableKind.t) :
  0 <= NullableKind.to_unsigned kind < 4.
Proof. destruct kind; simpl; lia. Qed.

Lemma wrap2_to_unsigned (kind : NullableKind.t) :
  wrap 2 (NullableKind.to_unsigned kind) = NullableKind.to_unsigned kind.
Proof. destruct kind; reflexivity. Qed.

Lemma to_unsigned_inj (k1 k2 : NullableKind.t) :
  NullableKind.to_unsigned k1 = NullableKind.to_unsigned k2 -> k1 = k2.
Proof. destruct k1, k2; simpl; intros H; try reflexivity; discriminate H. Qed.

Lemma enumerator_below_mask (kind : NullableKind.t) :
  NullableKind.is_enumerator kind = true <->
  NullableKind.to_unsigned kind < ObjCMethodInfo.NullableKindMask.
Proof.
  unfold ObjCMethodInfo.NullableKindMask.
  destruct kind; simpl; split; intros H; try reflexivity; try lia; discriminate H.
Qed.

(** ** ObjCClassInfo and ObjCPropertyInfo *)

Section PrivateBitFields.

Import ObjCClassInfo.

Lemma class_reachable_calls (c : ObjCClassInfo.t) :
  reachable c <-> exists kinds, c = class_after_calls kinds.
Proof.
  split.
  - induction 1 as [|kind c _ [kinds ->]].
    + exists []. reflexivity.
    + exists (kinds ++ [kind]). unfold class_after_calls.
      rewrite fold_left_app. reflexivity.
  - intros [kinds ->]. unfold class_after_calls.
    induction kinds as [|kind kinds IH] using rev_ind.
    + constructor.
    + rewrite fold_left_app. simpl. constructor. exact IH.
Qed.

(** Either nothing was set, or the flag is up. *)
Lemma class_reachable_shape (c : ObjCClassInfo.t) :
  reachable c ->
  c = ctor \/ (HasDefaultNullability c = 1 /\ 0 <= DefaultNullability c < 4).
Proof.
  destruct 1 as [|kind c _]; [left; reflexivity | right].
  simpl. rewrite wrap2_to_unsigned. split; [reflexivity | apply to_unsigned_range].
Qed.

Lemma class_unset_flag_zero (c : ObjCClassInfo.t) :
  reachable c -> HasDefaultNullability c = 0 -> DefaultNullability c = 0.
Proof.
  intros R H. destruct (class_reachable_shape c R) as [E | [E _]].
  - rewrite E. reflexivity.
  - rewrite E in H. discriminate H.
Qed.

Lemma class_eqb_eq (a b : ObjCClassInfo.t) : eqb a b = true <-> a = b.
Proof.
  unfold eqb. rewrite andb_true_iff, !Z.eqb_eq.
  destruct a, b; simpl; split.
  - intros [-> ->]; reflexivity.
  - intros H; injection H; auto.
Qed.

End PrivateBitFields.

Section PrivateBitFieldsProperty.

Import ObjCPropertyInfo.

Lemma property_reachable_calls (p : ObjCPropertyInfo.t) :
  reachable p <-> exists kinds, p = property_after_calls kinds.
Proof.
  split.
  - induction 1 as [|kind p _ [kinds ->]].
    + exists []. reflexivity.
    + exists (kinds ++ [kind]). unfold property_after_calls.
      rewrite fold_left_app. reflexivity.
  - intros [kinds ->]. unfold property_after_calls.
    induction kinds as [|kind kinds IH] using rev_ind.
    + constructor.
    + rewrite fold_left_app. simpl. constructor. exact IH.
Qed.

Lemma property_reachable_shape (p : ObjCPropertyInfo.t) :
  reachable p ->
  p = ctor \/ (NullabilityAudited p = 1 /\ 0 <= Nullable p < 4).
Proof.
  destruct 1 as [|kind p _]; [left; reflexivity | right].
  simpl. rewrite wrap2_to_unsigned. split; [reflexivity | apply to_unsigned_range].
Qed.

Lemma property_unset_flag_zero (p : ObjCPropertyInfo.t) :
  reachable p -> NullabilityAudited p = 0 -> Nullable p = 0.
Proof.
  intros R H. destruct (property_reachable_shape p R) as [E | [E _]].
  - rewrite E. reflexivity.
  - rewrite E in H. discriminate H.
Qed.

Lemma property_eqb_eq (a b : ObjCPropertyInfo.t) : eqb a b = true <-> a = b.
Proof.
  unfold eqb. rewrite andb_true_iff, !Z.eqb_eq.
  destruct a, b; simpl; split.
  - intros [-> ->]; reflexivity.
  - intros H; injection H; auto.
Qed.

(** On instances, [operator==] is equality of what [getNullability]
    returns: the same presence-plus-value rule as for classes. *)
Lemma property_eqb_presence_and_value (a b : ObjCPropertyInfo.t) :
  reachable a -> reachable b ->
  (eqb a b = true <-> getNullability a = getNullability b).
Proof.
  intros Ra Rb. rewrite property_eqb_eq.
  split; [intros ->; reflexivity |].
  destruct (property_reachable_shape a Ra) as [-> | [Fa Va]];
    destruct (property_reachable_shape b Rb) as [-> | [Fb Vb]];
    try reflexivity; unfold getNullability; try rewrite Fa; try rewrite Fb;
    simpl; try discriminate.
  intros H. injection H as H.
  destruct a as [fa va], b as [fb vb]; simpl in *. subst fa fb. f_equal.
  assert (Hc : forall x, 0 <= x < 4 -> x = 0 \/ x = 1 \/ x = 2 \/ x = 3) by (intros; lia).
  destruct (Hc va Va) as [-> | [-> | [-> | ->]]];
    destruct (Hc vb Vb) as [-> | [-> | [-> | ->]]];
    try reflexivity; discriminate H.
Qed.

End PrivateBitFieldsProperty.

(** C5: a freshly constructed ClassAnnotation has no default nullability,
    and on any ClassAnnotation, whatever it held before,
    [setDefaultNullability v] followed by [getDefaultNullability] yields
    present [v].  Both operations are total functions: there is no failure
    mode. *)
Theorem class_default_nullability_set_get :
  ObjCClassInfo.getDefaultNullability ObjCClassInfo.ctor = None
  /\ forall (v : NullableKind.t) (c : ObjCClassInfo.t),
       ObjCClassInfo.getDefaultNullability
         (ObjCClassInfo.setDefaultNullability v c) = Some v.
Proof.
  split; [reflexivity | intros v c; destruct v; reflexivity].
Qed.

(** C6: a freshly constructed PropertyAnnotation is not audited, and on any
    PropertyAnnotation [setNullabilityAudited v] followed by
    [getNullability] yields present [v]. *)
Theorem property_nullability_set_get :
  ObjCPropertyInfo.getNullability ObjCPropertyInfo.ctor = None
  /\ forall (v : NullableKind.t) (p : ObjCPropertyInfo.t),
       ObjCPropertyInfo.getNullability
         (ObjCPropertyInfo.setNullabilityAudited v p) = Some v.
Proof.
  split; [reflexivity | intros v p; destruct v; reflexivity].
Qed.

(** C10: in every ClassAnnotation and PropertyAnnotation obtained from
    default construction by any sequence of setter calls, the 2-bit value
    field is zero whenever the presence (audited) flag is unset. *)
Theorem unset_flag_has_zero_value (kinds : list NullableKind.t) :
  (ObjCClassInfo.HasDefaultNullability (class_after_calls kinds) = 0 ->
   ObjCClassInfo.DefaultNullability (class_after_calls kinds) = 0)
  /\ (ObjCPropertyInfo.NullabilityAudited (property_after_calls kinds) = 0 ->
      ObjCPropertyInfo.Nullable (property_after_calls kinds) = 0).
Proof.
  split.
  - apply class_unset_flag_zero, class_reachable_calls. exists kinds. reflexivity.
  - apply property_unset_flag_zero, property_reachable_calls. exists kinds. reflexivity.
Qed.

(** C8: for two ClassAnnotation instances (each built by the constructor
    and setter calls), [operator==] holds exactly when the presence flags
    match and, when present, the stored values match; and whatever the
    bits of the two fields are, instances whose presence flags differ
    compare unequal. *)
Theorem class_eqb_presence_and_value :
  (forall kinds1 kinds2 : list NullableKind.t,
     let a := class_after_calls kinds1 in
     let b := class_after_calls kinds2 in
     ObjCClassInfo.eqb a b = true <->
     (ObjCClassInfo.HasDefaultNullability a = ObjCClassInfo.HasDefaultNullability b
      /\ (ObjCClassInfo.HasDefaultNullability a <> 0 ->
          ObjCClassInfo.DefaultNullability a = ObjCClassInfo.DefaultNullability b)))
  /\ (forall a b : ObjCClassInfo.t,
        ObjCClassInfo.HasDefaultNullability a <> ObjCClassInfo.HasDefaultNullability b ->
        ObjCClassInfo.eqb a b = false).
Proof.
  split.
  - intros kinds1 kinds2 a b.
    assert (Ha := class_unset_flag_zero a).
    assert (Hb := class_unset_flag_zero b).
    rewrite class_reachable_calls in Ha, Hb.
    specialize (Ha (ex_intro _ kinds1 eq_refl)).
    specialize (Hb (ex_intro _ kinds2 eq_refl)).
    unfold ObjCClassInfo.eqb. rewrite andb_true_iff, !Z.eqb_eq.
    split; intros [Hf Hv]; split; auto.
    destruct (Z.eq_dec (ObjCClassInfo.HasDefaultNullability a) 0) as [E | E].
    + rewrite Ha by exact E. rewrite Hb by congruence. reflexivity.
    + apply Hv, E.
  - intros a b H. unfold ObjCClassInfo.eqb.
    apply Z.eqb_neq in H. rewrite H. reflexivity.
Qed.

(** ** ObjCMethodInfo: equality *)

Section MethodEquality.

Import ObjCMethodInfo.

Lemma method_eqb_fields (a b : ObjCMethodInfo.t) :
  eqb a b = true <->
  (DesignatedInit a = DesignatedInit b
   /\ FactoryAsInit a = FactoryAsInit b
   /\ Unavailable a = Unavailable b
   /\ UnavailableMsg a = UnavailableMsg b
   /\ NullabilityAudited a = NullabilityAudited b
   /\ NumAdjustedNullable a = NumAdjustedNullable b
   /\ NullabilityPayload a = NullabilityPayload b).
Proof.
  unfold eqb. rewrite !andb_true_iff, !Z.eqb_eq, String.eqb_eq. tauto.
Qed.

Lemma method_eqb_eq (a b : ObjCMethodInfo.t) : eqb a b = true <-> a = b.
Proof.
  rewrite method_eqb_fields. split.
  - destruct a, b; simpl. intros (-> & -> & -> & -> & -> & -> & ->). reflexivity.
  - intros ->. repeat split.
Qed.

Lemma method_eqb_neq (a b : ObjCMethodInfo.t) : eqb a b = false <-> a <> b.
Proof.
  rewrite <- method_eqb_eq. destruct (eqb a b); split; congruence.
Qed.

End MethodEquality.

(** C7: [operator==] on MethodAnnotation is structural.  It holds exactly
    when the designated-initializer flag, the classification, the
    unavailability flag, the message, the audited flag, the adjusted count
    and the whole payload word agree; a record equals itself (the same
    calls build the same record); and two records that differ in one
    field only, whichever it is, compare unequal. *)
Theorem method_eqb_structural :
  (forall a b : ObjCMethodInfo.t,
     ObjCMethodInfo.eqb a b = true <->
     (ObjCMethodInfo.DesignatedInit a = ObjCMethodInfo.DesignatedInit b
      /\ ObjCMethodInfo.FactoryAsInit a = ObjCMethodInfo.FactoryAsInit b
      /\ ObjCMethodInfo.Unavailable a = ObjCMethodInfo.Unavailable b
      /\ ObjCMethodInfo.UnavailableMsg a = ObjCMethodInfo.UnavailableMsg b
      /\ ObjCMethodInfo.NullabilityAudited a = ObjCMethodInfo.NullabilityAudited b
      /\ ObjCMethodInfo.NumAdjustedNullable a = ObjCMethodInfo.NumAdjustedNullable b
      /\ ObjCMethodInfo.NullabilityPayload a = ObjCMethodInfo.NullabilityPayload b))
  /\ (forall a : ObjCMethodInfo.t, ObjCMethodInfo.eqb a a = true)
  /\ (forall (d f u a n p : Z) (s : string),
        (forall d', d' <> d ->
           ObjCMethodInfo.eqb (ObjCMethodInfo.mk d f u a n p s)
                              (ObjCMethodInfo.mk d' f u a n p s) = false)
        /\ (forall f', f' <> f ->
              ObjCMethodInfo.eqb (ObjCMethodInfo.mk d f u a n p s)
                                 (ObjCMethodInfo.mk d f' u a n p s) = false)
        /\ (forall u', u' <> u ->
              ObjCMethodInfo.eqb (ObjCMethodInfo.mk d f u a n p s)
                                 (ObjCMethodInfo.mk d f u' a n p s) = false)
        /\ (forall a', a' <> a ->
              ObjCMethodInfo.eqb (ObjCMethodInfo.mk d f u a n p s)
                                 (ObjCMethodInfo.mk d f u a' n p s) = false)
        /\ (forall n', n' <> n ->
              ObjCMethodInfo.eqb (ObjCMethodInfo.mk d f u a n p s)
                                 (ObjCMethodInfo.mk d f u a n' p s) = false)
        /\ (forall p', p' <> p ->
              ObjCMethodInfo.eqb (ObjCMethodInfo.mk d f u a n p s)
                                 (ObjCMethodInfo.mk d f u a n p' s) = false)
        /\ (forall s', s' <> s ->
              ObjCMethodInfo.eqb (ObjCMethodInfo.mk d f u a n p s)
                                 (ObjCMethodInfo.mk d f u a n p s') = false)).
Proof.
  split; [exact method_eqb_fields | split].
  - intros a. apply method_eqb_eq. reflexivity.
  - intros d f u a n p s.
    repeat split; intros x Hx; apply method_eqb_neq; intros E;
      injection E as E; apply Hx; symmetry; exact E.
Qed.

(** ** ObjCMethodInfo: the read accessors *)

Section MethodReads.

Import ObjCMethodInfo.

Lemma getTypeInfo_unaudited (index : Z) (m : ObjCMethodInfo.t) :
  NullabilityAudited m = 0 -> getTypeInfo index m = AssertFailed.
Proof. intros H. unfold getTypeInfo. rewrite H. reflexivity. Qed.

Lemma getTypeInfo_beyond_count (index : Z) (m : ObjCMethodInfo.t) :
  NullabilityAudited m <> 0 ->
  NumAdjustedNullable m < index ->
  getTypeInfo index m = Done NullableKind.NonNullable.
Proof.
  intros Ha Hi. unfold getTypeInfo.
  apply Z.eqb_neq in Ha. rewrite Ha.
  apply Z.ltb_lt in Hi. rewrite Hi. reflexivity.
Qed.

(** Within the count and below position 32 the getter decodes the field of
    the payload that belongs to the position. *)
Lemma getTypeInfo_within_count (index : Z) (m : ObjCMethodInfo.t) :
  NullabilityAudited m <> 0 ->
  0 <= index <= NumAdjustedNullable m ->
  index < 32 ->
  getTypeInfo index m =
  Done (NullableKind.of_unsigned (payload_field index (NullabilityPayload m))).
Proof.
  intros Ha Hi Hlt. unfold getTypeInfo.
  apply Z.eqb_neq in Ha. rewrite Ha.
  replace (NumAdjustedNullable m <? index) with false
    by (symmetry; apply Z.ltb_ge; lia).
  unfold mul_unsigned, wrap, unsigned_bits, NullableKindSize.
  rewrite Z.mod_small by lia.
  unfold shr_uint64, uint64_bits.
  replace (index * 2 <? 64) with true by (symmetry; apply Z.ltb_lt; lia).
  reflexivity.
Qed.

(** The position a parameter index is mapped to, as long as [index + 1]
    is still an [unsigned]. *)
Lemma getParamTypeInfo_position (index : Z) (m : ObjCMethodInfo.t) :
  0 <= index < UINT_MAX ->
  getParamTypeInfo index m = getTypeInfo (index + 1) m.
Proof.
  unfold UINT_MAX, getParamTypeInfo, add_unsigned, wrap, unsigned_bits.
  intros H. rewrite Z.mod_small by lia. reflexivity.
Qed.

(** [index + 1] wraps at the top of the range: parameter [UINT_MAX] is
    read from position 0. *)
Lemma getParamTypeInfo_UINT_MAX (m : ObjCMethodInfo.t) :
  getParamTypeInfo UINT_MAX m = getReturnTypeInfo m.
Proof. reflexivity. Qed.

End MethodReads.

(** C3, as the code has it: on a MethodAnnotation with
    [NullabilityAudited] unset no read accessor returns a value; both fail
    the assertion that guards [getTypeInfo], at every parameter index and
    whatever the payload holds. *)
Theorem unaudited_reads_fail_assertion (m : ObjCMethodInfo.t) (i : Z) :
  ObjCMethodInfo.NullabilityAudited m = 0 ->
  ObjCMethodInfo.getReturnTypeInfo m = AssertFailed
  /\ ObjCMethodInfo.getParamTypeInfo i m = AssertFailed.
Proof.
  intros H. split; apply getTypeInfo_unaudited; exact H.
Qed.

Lemma unaudited_reads_fail_assertion_witness :
  ObjCMethodInfo.NullabilityAudited ObjCMethodInfo.ctor = 0
  /\ ObjCMethodInfo.getReturnTypeInfo ObjCMethodInfo.ctor = AssertFailed
  /\ ObjCMethodInfo.getParamTypeInfo 3 ObjCMethodInfo.ctor = AssertFailed.
Proof.
  split; [reflexivity |].
  apply (unaudited_reads_fail_assertion ObjCMethodInfo.ctor 3). reflexivity.
Defined.

(** C3 as stated fails on the freshly constructed record: it is not
    audited, and reading its return type or its first parameter fails the
    assertion instead of yielding [Unknown]. *)
Lemma unaudited_read_counterexample :
  ObjCMethodInfo.NullabilityAudited ObjCMethodInfo.ctor = 0
  /\ ObjCMethodInfo.getReturnTypeInfo ObjCMethodInfo.ctor = AssertFailed
  /\ ObjCMethodInfo.getReturnTypeInfo ObjCMethodInfo.ctor <> Done NullableKind.Unknown
  /\ ObjCMethodInfo.getParamTypeInfo 0 ObjCMethodInfo.ctor = AssertFailed
  /\ ObjCMethodInfo.getParamTypeInfo 0 ObjCMethodInfo.ctor <> Done NullableKind.Unknown.
Proof.
  repeat split; try reflexivity; intros H; discriminate H.
Qed.

(** C4, as the code has it: on an audited MethodAnnotation a read of a
    position above [NumAdjustedNullable] yields [NonNullable].  The return
    type is position 0.  Parameter [i] is position [i + 1] computed on
    [unsigned]: for every [i] below [UINT_MAX] that is [i + 1], so
    [getParamTypeInfo i] yields [NonNullable] whenever
    [i + 1 > NumAdjustedNullable]. *)
Theorem audited_reads_fall_back_to_NonNullable (m : ObjCMethodInfo.t) :
  ObjCMethodInfo.NullabilityAudited m <> 0 ->
  (forall index : Z,
     ObjCMethodInfo.NumAdjustedNullable m < index ->
     ObjCMethodInfo.getTypeInfo index m = Done NullableKind.NonNullable)
  /\ (ObjCMethodInfo.NumAdjustedNullable m < 0 ->
      ObjCMethodInfo.getReturnTypeInfo m = Done NullableKind.NonNullable)
  /\ (forall i : Z,
        0 <= i < UINT_MAX ->
        ObjCMethodInfo.NumAdjustedNullable m < i + 1 ->
        ObjCMethodInfo.getParamTypeInfo i m = Done NullableKind.NonNullable)
  /\ (forall i : Z,
        ObjCMethodInfo.NumAdjustedNullable m < add_unsigned i 1 ->
        ObjCMethodInfo.getParamTypeInfo i m = Done NullableKind.NonNullable).
Proof.
  intros Ha. repeat split.
  - intros index Hi. apply getTypeInfo_beyond_count; assumption.
  - intros Hi. apply getTypeInfo_beyond_count; assumption.
  - intros i Hr Hi. rewrite getParamTypeInfo_position by exact Hr.
    apply getTypeInfo_beyond_count; assumption.
  - intros i Hi. apply getTypeInfo_beyond_count; assumption.
Qed.

Lemma audited_reads_fall_back_to_NonNullable_witness :
  ObjCMethodInfo.NullabilityAudited nullable_return_method <> 0
  /\ ObjCMethodInfo.NumAdjustedNullable nullable_return_method < 0 + 1
  /\ ObjCMethodInfo.getParamTypeInfo 0 nullable_return_method
     = Done NullableKind.NonNullable.
Proof.
  assert (Ha : ObjCMethodInfo.NullabilityAudited nullable_return_method <> 0)
    by (intros H; discriminate H).
  split; [exact Ha | split; [reflexivity |]].
  apply (proj1 (proj2 (proj2
           (audited_reads_fall_back_to_NonNullable nullable_return_method Ha))) 0).
  - unfold UINT_MAX, unsigned_bits. simpl. lia.
  - reflexivity.
Defined.

(** C4 as stated fails at the top of the index range: on the audited
    record with no adjusted parameter and a nullable return type,
    [UINT_MAX + 1] exceeds the count, yet parameter [UINT_MAX] reads
    position 0 and yields [Nullable]. *)
Lemma param_fallback_counterexample :
  ObjCMethodInfo.addTypeInfo 0 NullableKind.Nullable audited_method
    = Done nullable_return_method
  /\ ObjCMethodInfo.NullabilityAudited nullable_return_method = 1
  /\ 0 <= UINT_MAX < 2 ^ unsigned_bits
  /\ ObjCMethodInfo.NumAdjustedNullable nullable_return_method < UINT_MAX + 1
  /\ ObjCMethodInfo.getParamTypeInfo UINT_MAX nullable_return_method
     = Done NullableKind.Nullable
  /\ ObjCMethodInfo.getParamTypeInfo UINT_MAX nullable_return_method
     <> Done NullableKind.NonNullable.
Proof.
  repeat split; try reflexivity; intros H; discriminate H.
Qed.

(** ** Two-bit fields of a word *)

Section PayloadFields.

Import ObjCMethodInfo.

Lemma testbit_mask (n : Z) :
  0 <= n -> Z.testbit NullableKindMask n = (n <? 2).
Proof.
  intros Hn. change NullableKindMask with (Z.ones 2).
  destruct (Z.ltb_spec n 2).
  - apply Z.ones_spec_low. lia.
  - apply Z.ones_spec_high. lia.
Qed.

Lemma testbit_below_pow2 (w x n : Z) :
  0 <= x < 2 ^ w -> w <= n -> Z.testbit x n = false.
Proof.
  intros Hx Hn.
  destruct (Z.ltb_spec w 0) as [Hw | Hw].
  - rewrite Z.pow_neg_r in Hx by exact Hw. lia.
  - rewrite <- (Z.mod_small x (2 ^ w)) by exact Hx.
    apply Z.mod_pow2_bits_high. lia.
Qed.

Lemma testbit_payload_field (index payload n : Z) :
  0 <= index -> 0 <= n ->
  Z.testbit (payload_field index payload) n =
  Z.testbit payload (n + index * NullableKindSize) && (n <? 2).
Proof.
  intros Hi Hn. unfold payload_field.
  rewrite Z.land_spec, Z.shiftr_spec, testbit_mask by exact Hn.
  reflexivity.
Qed.

Lemma payload_field_range (index payload : Z) :
  0 <= payload_field index payload < 4.
Proof.
  unfold payload_field. change NullableKindMask with (Z.ones 2).
  rewrite Z.land_ones by lia. change (2 ^ 2) with 4.
  apply Z.mod_pos_bound. lia.
Qed.

(** ORing a 2-bit value shifted to position [q] changes the field of
    position [q], by an OR, and no other field. *)
Lemma payload_field_lor_shiftl (p q payload k : Z) :
  0 <= p -> 0 <= q -> 0 <= k < 4 ->
  payload_field p (Z.lor payload (Z.shiftl k (q * NullableKindSize))) =
  if p =? q then Z.lor (payload_field p payload) k else payload_field p payload.
Proof.
  intros Hp Hq Hk. unfold NullableKindSize.
  assert (Hk2 : forall n, 2 <= n -> Z.testbit k n = false)
    by (intros n Hn; apply (testbit_below_pow2 2); [exact Hk | exact Hn]).
  apply Z.bits_inj'. intros n Hn.
  rewrite testbit_payload_field, Z.lor_spec by assumption.
  unfold NullableKindSize.
  destruct (Z.eqb_spec p q) as [-> | Hne].
  - rewrite Z.lor_spec, testbit_payload_field by assumption.
    unfold NullableKindSize.
    rewrite Z.shiftl_spec by lia.
    replace (n + q * 2 - q * 2) with n by lia.
    destruct (Z.ltb_spec n 2) as [Hlt | Hge].
    + rewrite !andb_true_r. reflexivity.
    + rewrite !andb_false_r, Hk2 by exact Hge. reflexivity.
  - rewrite testbit_payload_field by assumption.
    unfold NullableKindSize.
    destruct (Z.ltb_spec n 2) as [Hlt | Hge];
      [rewrite !andb_true_r | rewrite !andb_false_r; reflexivity].
    rewrite Z.shiftl_spec by lia.
    destruct (Z.ltb_spec (n + p * 2 - q * 2) 0) as [Hneg | Hpos].
    + rewrite (Z.testbit_neg_r k) by exact Hneg. apply orb_false_r.
    + rewrite Hk2 by lia. apply orb_false_r.
Qed.

(** A value that fits an [unsigned] leaves every field from position 16
    upwards as it was. *)
Lemma payload_field_lor_unsigned (p payload kindValue : Z) :
  16 <= p -> 0 <= kindValue < 2 ^ unsigned_bits ->
  payload_field p (Z.lor payload kindValue) = payload_field p payload.
Proof.
  intros Hp Hk. apply Z.bits_inj'. intros n Hn.
  rewrite !testbit_payload_field, Z.lor_spec by lia.
  unfold NullableKindSize.
  rewrite (testbit_below_pow2 unsigned_bits kindValue)
    by (unfold unsigned_bits; lia || exact Hk).
  rewrite orb_false_r. reflexivity.
Qed.

End PayloadFields.

(** ** ObjCMethodInfo: addTypeInfo *)

Section MethodWrites.

Import ObjCMethodInfo.

(** The three assertions, and nothing else, end a call with
    [AssertFailed]. *)
Lemma addTypeInfo_AssertFailed_iff (index : Z) (kind : NullableKind.t)
      (m : ObjCMethodInfo.t) :
  addTypeInfo index kind m = AssertFailed <->
  (32 < index
   \/ NullableKind.is_enumerator kind = false
   \/ NullabilityAudited m = 0).
Proof.
  unfold addTypeInfo.
  change (sizeof_NullabilityPayload * CHAR_BIT / NullableKindSize) with 32.
  destruct (Z.leb_spec index 32) as [Hi | Hi]; simpl.
  2: { split; [intros _; left; exact Hi | reflexivity]. }
  destruct (NullableKind.is_enumerator kind) eqn:Hk.
  2: { destruct kind; try discriminate Hk. simpl.
       split; [intros _; right; left; reflexivity | reflexivity]. }
  assert (Hlt : (NullableKind.to_unsigned kind <? NullableKindMask) = true)
    by (apply Z.ltb_lt, enumerator_below_mask, Hk).
  rewrite Hlt. simpl.
  destruct (Z.eqb_spec (NullabilityAudited m) 0) as [Ha | Ha].
  { split; [intros _; right; right; exact Ha | reflexivity]. }
  destruct (shl_unsigned _ _); split; try (intros H; discriminate H);
    intros [H | [H | H]]; (lia || discriminate H || contradiction).
Qed.

Lemma shl_unsigned_low (kind : NullableKind.t) (index : Z) :
  0 <= index < 16 ->
  NullableKind.is_enumerator kind = true ->
  shl_unsigned (NullableKind.to_unsigned kind) (mul_unsigned index NullableKindSize)
  = Some (Z.shiftl (NullableKind.to_unsigned kind) (index * NullableKindSize)).
Proof.
  intros Hi Hk.
  unfold mul_unsigned, shl_unsigned, wrap, unsigned_bits, NullableKindSize.
  rewrite (Z.mod_small (index * 2)) by lia.
  replace (index * 2 <? 32) with true by (symmetry; apply Z.ltb_lt; lia).
  f_equal. apply Z.mod_small.
  rewrite Z.shiftl_mul_pow2 by lia.
  assert (Hp : 0 < 2 ^ (index * 2) <= 2 ^ 30)
    by (split; [apply Z.pow_pos_nonneg; lia
               | apply Z.pow_le_mono_r; lia]).
  apply enumerator_below_mask in Hk. unfold NullableKindMask in Hk.
  pose proof (to_unsigned_range kind) as Hu.
  change (2 ^ 32) with 4294967296. change (2 ^ 30) with 1073741824 in Hp.
  nia.
Qed.

Lemma shl_unsigned_high (x index : Z) :
  16 <= index <= 32 ->
  shl_unsigned x (mul_unsigned index NullableKindSize) = None.
Proof.
  intros Hi.
  unfold mul_unsigned, shl_unsigned, wrap, unsigned_bits, NullableKindSize.
  rewrite (Z.mod_small (index * 2)) by lia.
  replace (index * 2 <? 32) with false by (symmetry; apply Z.ltb_ge; lia).
  reflexivity.
Qed.

Lemma addTypeInfo_passes_assertions (index : Z) (kind : NullableKind.t)
      (m : ObjCMethodInfo.t) :
  index <= 32 ->
  NullableKind.is_enumerator kind = true ->
  NullabilityAudited m <> 0 ->
  addTypeInfo index kind m =
  match shl_unsigned (NullableKind.to_unsigned kind)
                     (mul_unsigned index NullableKindSize) with
  | Some kindValue => Done (or_kindValue kindValue m)
  | None => Undefined
  end.
Proof.
  intros Hi Hk Ha. unfold addTypeInfo.
  change (sizeof_NullabilityPayload * CHAR_BIT / NullableKindSize) with 32.
  apply Z.leb_le in Hi. rewrite Hi.
  apply enumerator_below_mask, Z.ltb_lt in Hk. rewrite Hk.
  apply Z.eqb_neq in Ha. rewrite Ha. reflexivity.
Qed.

(** Positions 0 to 15: the call returns, and ORs the value into the
    payload at bit [index * 2]. *)
Lemma addTypeInfo_low (index : Z) (kind : NullableKind.t) (m : ObjCMethodInfo.t) :
  0 <= index < 16 ->
  NullableKind.is_enumerator kind = true ->
  NullabilityAudited m <> 0 ->
  addTypeInfo index kind m =
  Done (or_kindValue
          (Z.shiftl (NullableKind.to_unsigned kind) (index * NullableKindSize)) m).
Proof.
  intros Hi Hk Ha.
  rewrite addTypeInfo_passes_assertions by (assumption || lia).
  rewrite shl_unsigned_low by assumption. reflexivity.
Qed.

(** Positions 16 to 32: every assertion passes, and the shift that builds
    [kindValue] has a count of 32 or more. *)
Lemma addTypeInfo_high (index : Z) (kind : NullableKind.t) (m : ObjCMethodInfo.t) :
  16 <= index <= 32 ->
  NullableKind.is_enumerator kind = true ->
  NullabilityAudited m <> 0 ->
  addTypeInfo index kind m = Undefined.
Proof.
  intros Hi Hk Ha.
  rewrite addTypeInfo_passes_assertions by (assumption || lia).
  rewrite shl_unsigned_high by assumption. reflexivity.
Qed.

(** A call that returns has changed the payload only, by an OR. *)
Lemma addTypeInfo_Done_frame (index : Z) (kind : NullableKind.t)
      (m m' : ObjCMethodInfo.t) :
  0 <= index ->
  addTypeInfo index kind m = Done m' ->
  index < 16
  /\ DesignatedInit m' = DesignatedInit m
  /\ FactoryAsInit m' = FactoryAsInit m
  /\ Unavailable m' = Unavailable m
  /\ UnavailableMsg m' = UnavailableMsg m
  /\ NullabilityAudited m' = NullabilityAudited m
  /\ NumAdjustedNullable m' = NumAdjustedNullable m
  /\ NullabilityPayload m' =
     Z.lor (NullabilityPayload m)
           (Z.shiftl (NullableKind.to_unsigned kind) (index * NullableKindSize)).
Proof.
  intros Hi H.
  assert (Hn : addTypeInfo index kind m <> AssertFailed) by congruence.
  rewrite addTypeInfo_AssertFailed_iff in Hn.
  assert (Hle : index <= 32) by lia.
  assert (Hk : NullableKind.is_enumerator kind = true)
    by (destruct (NullableKind.is_enumerator kind); tauto).
  assert (Ha : NullabilityAudited m <> 0) by tauto.
  destruct (Z.ltb_spec index 16) as [Hlt | Hge].
  - rewrite addTypeInfo_low in H by (assumption || lia).
    injection H as <-. simpl. repeat split. exact Hlt.
  - rewrite addTypeInfo_high in H by (assumption || lia). discriminate H.
Qed.

End MethodWrites.

(** ** ObjCMethodInfo: writing positions and reading them back *)

Section MethodRoundTrip.

Import ObjCMethodInfo.

Lemma written_unique (writes : list (Z * NullableKind.t)) (p : Z)
      (kind : NullableKind.t) :
  NoDup (map fst writes) ->
  In (p, kind) writes ->
  written writes p = NullableKind.to_unsigned kind.
Proof.
  induction writes as [|[index k] rest IH]; simpl; [contradiction |].
  intros Hnd Hin. inversion Hnd as [|? ? Hnotin Hnd']; subst.
  assert (Hout : forall q, ~ In q (map fst rest) -> written rest q = 0).
  { clear. induction rest as [|[i k'] rest IH]; simpl; intros q Hq; [reflexivity |].
    destruct (Z.eqb_spec q i) as [-> | _]; [exfalso; apply Hq; left; reflexivity |].
    rewrite IH by (intros H; apply Hq; right; exact H). reflexivity. }
  destruct Hin as [E | Hin].
  - injection E as -> ->. rewrite Z.eqb_refl, Hout by exact Hnotin.
    apply Z.lor_0_r.
  - destruct (Z.eqb_spec p index) as [-> | _].
    + exfalso. apply Hnotin. change index with (fst (index, kind)).
      apply in_map. exact Hin.
    + rewrite IH by assumption. reflexivity.
Qed.

(** A run of writes to positions 0 to 15 returns; it leaves every field
    but the payload alone, and ORs into each 2-bit field of the payload
    what was written to its position. *)
Lemma addTypeInfos_low (writes : list (Z * NullableKind.t)) :
  forall m : ObjCMethodInfo.t,
    NullabilityAudited m <> 0 ->
    Forall low_write writes ->
    exists m',
      addTypeInfos writes m = Done m'
      /\ NullabilityAudited m' = NullabilityAudited m
      /\ NumAdjustedNullable m' = NumAdjustedNullable m
      /\ forall p, 0 <= p ->
           payload_field p (NullabilityPayload m') =
           Z.lor (payload_field p (NullabilityPayload m)) (written writes p).
Proof.
  induction writes as [|[index kind] rest IH]; intros m Ha Hall.
  - exists m. simpl. repeat split. intros p _. symmetry. apply Z.lor_0_r.
  - inversion Hall as [|? ? [Hi Hk] Hrest]; subst. simpl in Hi, Hk.
    simpl. rewrite addTypeInfo_low by assumption. simpl.
    destruct (IH (or_kindValue
                    (Z.shiftl (NullableKind.to_unsigned kind)
                              (index * NullableKindSize)) m))
      as (m' & Hrun & Haud & Hnum & Hpay); [exact Ha | exact Hrest |].
    exists m'. split; [exact Hrun |]. split; [exact Haud |].
    split; [exact Hnum |]. intros p Hp.
    rewrite Hpay by exact Hp. simpl.
    rewrite payload_field_lor_shiftl
      by (try apply to_unsigned_range; lia).
    destruct (p =? index);
      [symmetry; apply Z.lor_assoc | rewrite Z.lor_0_l; reflexivity].
Qed.

(** Round trip on the low half of the payload: after one write to each of
    some positions among 0 to 15, on an audited record whose payload was
    zero and whose count covers them, [getTypeInfo] returns at each written
    position the value written there. *)
Lemma low_positions_round_trip (writes : list (Z * NullableKind.t))
      (m : ObjCMethodInfo.t) :
  NullabilityAudited m <> 0 ->
  NullabilityPayload m = 0 ->
  Forall low_write writes ->
  NoDup (map fst writes) ->
  (forall w, In w writes -> fst w <= NumAdjustedNullable m) ->
  exists m',
    addTypeInfos writes m = Done m'
    /\ forall p kind, In (p, kind) writes -> getTypeInfo p m' = Done kind.
Proof.
  intros Ha Hz Hall Hnd Hcount.
  destruct (addTypeInfos_low writes m Ha Hall) as (m' & Hrun & Haud & Hnum & Hpay).
  exists m'. split; [exact Hrun |]. intros p kind Hin.
  assert (Hlow : low_write (p, kind))
    by (apply (proj1 (Forall_forall low_write writes) Hall), Hin).
  destruct Hlow as [Hp _]. simpl in Hp.
  rewrite getTypeInfo_within_count.
  - rewrite Hpay, Hz by lia.
    replace (payload_field p 0) with 0
      by (unfold payload_field; rewrite Z.shiftr_0_l; reflexivity).
    rewrite Z.lor_0_l, (written_unique writes p kind) by assumption.
    f_equal. apply of_to_unsigned.
  - rewrite Haud. exact Ha.
  - rewrite Hnum. split; [lia |]. apply (Hcount (p, kind) Hin).
  - lia.
Qed.

(** Whatever 32-bit pattern ends up in [kindValue], the OR leaves the
    fields of positions 16 to 31 as they were: nothing written there can
    be read back. *)
Lemma high_positions_not_written (p kindValue : Z) (m : ObjCMethodInfo.t) :
  16 <= p < 32 ->
  0 <= kindValue < 2 ^ unsigned_bits ->
  getTypeInfo p (or_kindValue kindValue m) = getTypeInfo p m.
Proof.
  intros Hp Hk. unfold getTypeInfo. simpl.
  destruct (NullabilityAudited m =? 0); [reflexivity |].
  destruct (NumAdjustedNullable m <? p); [reflexivity |].
  unfold mul_unsigned, wrap, unsigned_bits, NullableKindSize.
  rewrite Z.mod_small by lia.
  unfold shr_uint64, uint64_bits.
  replace (p * 2 <? 64) with true by (symmetry; apply Z.ltb_lt; lia).
  do 2 f_equal.
  apply (payload_field_lor_unsigned p (NullabilityPayload m) kindValue); [lia | exact Hk].
Qed.

End MethodRoundTrip.

(** *** The writes of [writes_upto] *)

Section WritesUpto.

Import ObjCMethodInfo.

Lemma kind_at_enumerator (index : Z) :
  NullableKind.is_enumerator (kind_at index) = true.
Proof.
  unfold kind_at. destruct (index mod 3) as [|p|p]; [| destruct p |]; reflexivity.
Qed.

Lemma writes_upto_NoDup (last : nat) : NoDup (map fst (writes_upto last)).
Proof.
  unfold writes_upto. rewrite map_map. simpl fst.
  apply Injective_map_NoDup.
  - intros a b. apply Nat2Z.inj.
  - apply seq_NoDup.
Qed.

Lemma writes_upto_In (last : nat) (w : Z * NullableKind.t) :
  In w (writes_upto last) <->
  exists i : nat, (i <= last)%nat /\ w = (Z.of_nat i, kind_at (Z.of_nat i)).
Proof.
  unfold writes_upto. rewrite in_map_iff. split.
  - intros (i & <- & Hi). apply in_seq in Hi. exists i. split; [lia | reflexivity].
  - intros (i & Hi & ->). exists i. split; [reflexivity | apply in_seq; lia].
Qed.

Lemma writes_upto_low (last : nat) :
  (last <= 15)%nat -> Forall low_write (writes_upto last).
Proof.
  intros Hl. apply Forall_forall. intros w Hw.
  apply writes_upto_In in Hw. destruct Hw as (i & Hi & ->).
  split; simpl; [lia | apply kind_at_enumerator].
Qed.

Lemma addTypeInfos_app (ws1 ws2 : list (Z * NullableKind.t)) :
  forall m : ObjCMethodInfo.t,
    addTypeInfos (ws1 ++ ws2) m = bind (addTypeInfos ws1 m) (addTypeInfos ws2).
Proof.
  induction ws1 as [|[index kind] rest IH]; intros m; simpl; [reflexivity |].
  destruct (addTypeInfo index kind m); simpl; [apply IH | reflexivity | reflexivity].
Qed.

(** Positions 0 to [last], for [last] up to 15, written once each with the
    values of [kind_at] on an audited record with an empty payload and a
    count that covers them, are read back as written, through both public
    getters. *)
Lemma writes_upto_round_trip (last : nat) (m : ObjCMethodInfo.t) :
  (last <= 15)%nat ->
  NullabilityAudited m <> 0 ->
  NullabilityPayload m = 0 ->
  Z.of_nat last <= NumAdjustedNullable m ->
  exists m',
    addTypeInfos (writes_upto last) m = Done m'
    /\ getReturnTypeInfo m' = Done (kind_at 0)
    /\ forall i : nat, (i < last)%nat ->
         getParamTypeInfo (Z.of_nat i) m' = Done (kind_at (Z.of_nat i + 1)).
Proof.
  intros Hl Ha Hz Hn.
  destruct (low_positions_round_trip (writes_upto last) m)
    as (m' & Hrun & Hread);
    [exact Ha | exact Hz | apply writes_upto_low, Hl | apply writes_upto_NoDup | |].
  - intros w Hw. apply writes_upto_In in Hw. destruct Hw as (i & Hi & ->).
    simpl. lia.
  - exists m'. split; [exact Hrun | split].
    + apply Hread, writes_upto_In. exists 0%nat. split; [lia | reflexivity].
    + intros i Hi. rewrite getParamTypeInfo_position
        by (unfold UINT_MAX, unsigned_bits; simpl; lia).
      apply Hread, writes_upto_In. exists (S i). split; [lia |].
      replace (Z.of_nat (S i)) with (Z.of_nat i + 1) by lia. reflexivity.
Qed.

(** A run that goes on to position 16 has no defined result, wherever it
    was meant to stop, up to position 32. *)
Lemma writes_upto_undefined (last : nat) (m : ObjCMethodInfo.t) :
  (16 <= last)%nat ->
  NullabilityAudited m <> 0 ->
  addTypeInfos (writes_upto last) m = Undefined.
Proof.
  intros Hl Ha. unfold writes_upto.
  replace (S last) with (16 + S (last - 16))%nat by lia.
  rewrite seq_app, map_app, addTypeInfos_app.
  destruct (addTypeInfos_low (writes_upto 15) m Ha (writes_upto_low 15 (le_n 15)))
    as (m' & Hrun & Haud & _).
  unfold writes_upto in Hrun. rewrite Hrun.
  cbn [bind seq map addTypeInfos].
  rewrite addTypeInfo_high;
    [reflexivity | lia | apply kind_at_enumerator | rewrite Haud; exact Ha].
Qed.

End WritesUpto.

(** C1 (not met by the code): on the audited record whose count covers
    positions 0 to 31, the writes to positions 0 to 15 return, and the
    next write, [addTypeInfo 16 Unknown], shifts an [unsigned] by 32 bits:
    it has no defined result, so neither has the run over positions 0 to
    31.  Whatever value of an [unsigned] that shift leaves in [kindValue],
    position 16 reads back as [NonNullable], not as the [Unknown] that
    was written. *)
Theorem round_trip_stops_at_position_16 :
  (exists m15,
     addTypeInfos (writes_upto 15) audited_method_31 = Done m15
     /\ ObjCMethodInfo.addTypeInfo 16 (kind_at 16) m15 = Undefined)
  /\ kind_at 16 = NullableKind.Unknown
  /\ addTypeInfos (writes_upto 31) audited_method_31 = Undefined
  /\ (forall kindValue : Z,
        0 <= kindValue < 2 ^ unsigned_bits ->
        ObjCMethodInfo.getTypeInfo 16
          (ObjCMethodInfo.or_kindValue kindValue audited_method_31)
        = Done NullableKind.NonNullable).
Proof.
  split; [| split; [reflexivity | split; [reflexivity |]]].
  - eexists. split; [vm_compute; reflexivity | reflexivity].
  - intros kindValue Hk.
    rewrite high_positions_not_written by (exact Hk || lia). reflexivity.
Qed.

(** C2 (not met by the code): on an audited record the range assertion
    lets position 32 through, although [32 * 2 >= 64]; the call then
    shifts by 64 bits and has no defined result.  The first position that
    fails the assertion is 33. *)
Theorem position_32_passes_the_assertions :
  ObjCMethodInfo.NullabilityAudited audited_method = 1
  /\ 32 * ObjCMethodInfo.NullableKindSize >= 64
  /\ ObjCMethodInfo.addTypeInfo 32 NullableKind.Nullable audited_method = Undefined
  /\ ObjCMethodInfo.addTypeInfo 32 NullableKind.Nullable audited_method <> AssertFailed
  /\ ObjCMethodInfo.addTypeInfo 33 NullableKind.Nullable audited_method = AssertFailed.
Proof.
  repeat split; try reflexivity; intros H; discriminate H.
Qed.

(** C9 (not met by the code): [busy_method] is audited and position 31 is
    in range ([31 * 2 < 64]), yet [addTypeInfo 31 Unknown] returns no
    record at all: the value is shifted as an [unsigned], by 62 bits.  The
    claim asks for the payload [5 | (2 << 62)] with the other fields
    unchanged, and no value of an [unsigned] in [kindValue] produces that
    payload. *)
Theorem in_range_write_has_no_result :
  ObjCMethodInfo.NullabilityAudited busy_method = 1
  /\ ObjCMethodInfo.NullabilityPayload busy_method = 5
  /\ 31 * ObjCMethodInfo.NullableKindSize < 64
  /\ ObjCMethodInfo.addTypeInfo 31 NullableKind.Unknown busy_method = Undefined
  /\ ObjCMethodInfo.addTypeInfo 31 NullableKind.Unknown busy_method
     <> Done (ObjCMethodInfo.or_kindValue
                (Z.shiftl 2 (31 * ObjCMethodInfo.NullableKindSize)) busy_method)
  /\ (forall kindValue : Z,
        0 <= kindValue < 2 ^ unsigned_bits ->
        ObjCMethodInfo.NullabilityPayload
          (ObjCMethodInfo.or_kindValue kindValue busy_method)
        <> Z.lor 5 (Z.shiftl 2 (31 * ObjCMethodInfo.NullableKindSize))).
Proof.
  repeat split; try reflexivity; try (intros H; discriminate H).
  intros kindValue Hk E.
  apply (f_equal (fun x => Z.testbit x 63)) in E.
  change (ObjCMethodInfo.NullabilityPayload
            (ObjCMethodInfo.or_kindValue kindValue busy_method))
    with (Z.lor 5 kindValue) in E.
  rewrite Z.lor_spec, (testbit_below_pow2 unsigned_bits kindValue) in E
    by (exact Hk || (unfold unsigned_bits; lia)).
  vm_compute in E. discriminate E.
Qed.

(** ** A worked record

    The method [init(value:)]: a designated initializer, treated as an
    initializer, audited, with a nullable return type and one non-nullable
    parameter.  After the two writes the getters return what was recorded,
    and the remaining fields are as they were set. *)
Example init_value_scenario :
  let m0 :=
    ObjCMethodInfo.set_NumAdjustedNullable 1
      (ObjCMethodInfo.set_NullabilityAudited 1
         (ObjCMethodInfo.setFactoryAsInitKind FactoryAsInitKind.AsInitializer
            (ObjCMethodInfo.set_DesignatedInit 1 ObjCMethodInfo.ctor))) in
  exists m,
    addTypeInfos [(0, NullableKind.Nullable); (1, NullableKind.NonNullable)] m0
      = Done m
    /\ ObjCMethodInfo.getReturnTypeInfo m = Done NullableKind.Nullable
    /\ ObjCMethodInfo.getParamTypeInfo 0 m = Done NullableKind.NonNullable
    /\ ObjCMethodInfo.getParamTypeInfo 1 m = Done NullableKind.NonNullable
    /\ ObjCMethodInfo.DesignatedInit m = 1
    /\ ObjCMethodInfo.FactoryAsInit m
       = FactoryAsInitKind.to_unsigned FactoryAsInitKind.AsInitializer.
Proof.
  eexists. split; [vm_compute; reflexivity | repeat split].
Qed.

(** * Further properties of the accessors *)

(** ** What a call of [addTypeInfo] can do *)

Section WriteOutcomes.

Import ObjCMethodInfo.

Lemma lor_below_pow2 (w a b : Z) :
  0 <= a < 2 ^ w -> 0 <= b < 2 ^ w -> 0 <= Z.lor a b < 2 ^ w.
Proof.
  intros Ha Hb.
  destruct (Z.ltb_spec w 0) as [Hw | Hw];
    [rewrite Z.pow_neg_r in Ha by exact Hw; lia |].
  rewrite <- (Z.mod_small a (2 ^ w)), <- (Z.mod_small b (2 ^ w)) by assumption.
  rewrite <- !Z.land_ones, <- Z.land_lor_distr_l, Z.land_ones by exact Hw.
  apply Z.mod_pos_bound, Z.pow_pos_nonneg; lia.
Qed.

Lemma shl_unsigned_range (x n kindValue : Z) :
  shl_unsigned x n = Some kindValue -> 0 <= kindValue < 2 ^ unsigned_bits.
Proof.
  unfold shl_unsigned, wrap. destruct (n <? unsigned_bits); [| discriminate].
  intros H. injection H as <-. apply Z.mod_pos_bound. reflexivity.
Qed.

(** A call that returns has passed the audit assertion and ORed some
    value of an [unsigned] into the payload. *)
Lemma addTypeInfo_Done_inv (index : Z) (kind : NullableKind.t)
      (m m' : ObjCMethodInfo.t) :
  addTypeInfo index kind m = Done m' ->
  NullabilityAudited m <> 0
  /\ exists kindValue,
       0 <= kindValue < 2 ^ unsigned_bits /\ m' = or_kindValue kindValue m.
Proof.
  unfold addTypeInfo.
  destruct (negb _); [discriminate |].
  destruct (negb _); [discriminate |].
  destruct (Z.eqb_spec (NullabilityAudited m) 0) as [_ | Ha]; [discriminate |].
  destruct (shl_unsigned _ _) as [kindValue |] eqn:E; [| discriminate].
  intros H. injection H as <-. split; [exact Ha |].
  exists kindValue. split; [exact (shl_unsigned_range _ _ _ E) | reflexivity].
Qed.

Lemma or_kindValue_0 (m : ObjCMethodInfo.t) : or_kindValue 0 m = m.
Proof. destruct m. unfold or_kindValue. simpl. rewrite Z.lor_0_r. reflexivity. Qed.

Lemma or_kindValue_comm (a b : Z) (m : ObjCMethodInfo.t) :
  or_kindValue a (or_kindValue b m) = or_kindValue b (or_kindValue a m).
Proof.
  unfold or_kindValue. simpl. f_equal.
  rewrite <- !Z.lor_assoc. f_equal. apply Z.lor_comm.
Qed.

Lemma or_kindValue_twice (a : Z) (m : ObjCMethodInfo.t) :
  or_kindValue a (or_kindValue a m) = or_kindValue a m.
Proof.
  unfold or_kindValue. simpl. f_equal.
  rewrite <- Z.lor_assoc, Z.lor_diag. reflexivity.
Qed.

End WriteOutcomes.

(** X1: [addTypeInfo] fails an assertion exactly when the index is above
    32, or the kind is not one of the three enumerators, or the record is
    not audited.  Index 32 itself does not fail. *)
Theorem addTypeInfo_faults_exactly (index : Z) (kind : NullableKind.t)
        (m : ObjCMethodInfo.t) :
  ObjCMethodInfo.addTypeInfo index kind m = AssertFailed <->
  (32 < index
   \/ NullableKind.is_enumerator kind = false
   \/ ObjCMethodInfo.NullabilityAudited m = 0).
Proof. apply addTypeInfo_AssertFailed_iff. Qed.

(** X2: for an index that is an [unsigned], [addTypeInfo] returns a record
    exactly when the index is at most 15, the kind is an enumerator and
    the record is audited; it reaches the shift with a count of 32 or more,
    which has no defined result, exactly when the index is 16 to 32 under
    the same two conditions. *)
Theorem addTypeInfo_returns_exactly (index : Z) (kind : NullableKind.t)
        (m : ObjCMethodInfo.t) :
  0 <= index ->
  ((exists m', ObjCMethodInfo.addTypeInfo index kind m = Done m') <->
   (index < 16
    /\ NullableKind.is_enumerator kind = true
    /\ ObjCMethodInfo.NullabilityAudited m <> 0))
  /\ (ObjCMethodInfo.addTypeInfo index kind m = Undefined <->
      (16 <= index <= 32
       /\ NullableKind.is_enumerator kind = true
       /\ ObjCMethodInfo.NullabilityAudited m <> 0)).
Proof.
  intros Hi.
  pose proof (addTypeInfo_AssertFailed_iff index kind m) as Hf.
  destruct (Z.leb_spec index 32) as [Hle | Hgt].
  2: { assert (E : ObjCMethodInfo.addTypeInfo index kind m = AssertFailed)
         by (apply Hf; left; exact Hgt).
       rewrite E. split; split;
         try (intros [m' H]; discriminate H); try (intros H; discriminate H);
         intros [H _]; lia. }
  destruct (NullableKind.is_enumerator kind) eqn:Hk.
  2: { assert (E : ObjCMethodInfo.addTypeInfo index kind m = AssertFailed)
         by (apply Hf; right; left; reflexivity).
       rewrite E. split; split;
         try (intros [m' H]; discriminate H); try (intros H; discriminate H);
         intros (_ & H & _); discriminate H. }
  destruct (Z.eq_dec (ObjCMethodInfo.NullabilityAudited m) 0) as [Ha | Ha].
  { assert (E : ObjCMethodInfo.addTypeInfo index kind m = AssertFailed)
      by (apply Hf; right; right; exact Ha).
    rewrite E. split; split;
      try (intros [m' H]; discriminate H); try (intros H; discriminate H);
      intros (_ & _ & H); contradiction. }
  destruct (Z.ltb_spec index 16) as [Hlt | Hge].
  - rewrite addTypeInfo_low by (assumption || lia). split; split.
    + intros _. repeat split; assumption.
    + intros _. eexists. reflexivity.
    + intros H. discriminate H.
    + intros [H _]. lia.
  - rewrite addTypeInfo_high by (assumption || lia). split; split.
    + intros [m' H]. discriminate H.
    + intros [H _]. lia.
    + intros _. repeat split; (assumption || lia).
    + reflexivity.
Qed.

Lemma addTypeInfo_returns_exactly_witness :
  (exists m',
     ObjCMethodInfo.addTypeInfo 15 NullableKind.Unknown audited_method = Done m')
  /\ ObjCMethodInfo.addTypeInfo 15 NullableKind.Unknown audited_method <> Undefined.
Proof.
  assert (H0 : 0 <= 15) by lia.
  destruct (addTypeInfo_returns_exactly 15 NullableKind.Unknown audited_method H0)
    as [Hd Hu].
  split.
  - apply Hd. split; [lia | split; [reflexivity | intros H; discriminate H]].
  - intros H. apply Hu in H. lia.
Defined.

(** X3: a call of [addTypeInfo] that returns (the index being an
    [unsigned]) has left the designated-initializer flag, the
    classification, the unavailability flag and message, the audited flag
    and the count as they were, and the new payload is the old one ORed
    with the kind's value shifted to bit [index * 2]. *)
Theorem addTypeInfo_changes_payload_only (index : Z) (kind : NullableKind.t)
        (m m' : ObjCMethodInfo.t) :
  0 <= index ->
  ObjCMethodInfo.addTypeInfo index kind m = Done m' ->
  ObjCMethodInfo.DesignatedInit m' = ObjCMethodInfo.DesignatedInit m
  /\ ObjCMethodInfo.FactoryAsInit m' = ObjCMethodInfo.FactoryAsInit m
  /\ ObjCMethodInfo.Unavailable m' = ObjCMethodInfo.Unavailable m
  /\ ObjCMethodInfo.UnavailableMsg m' = ObjCMethodInfo.UnavailableMsg m
  /\ ObjCMethodInfo.NullabilityAudited m' = ObjCMethodInfo.NullabilityAudited m
  /\ ObjCMethodInfo.NumAdjustedNullable m' = ObjCMethodInfo.NumAdjustedNullable m
  /\ ObjCMethodInfo.NullabilityPayload m' =
     Z.lor (ObjCMethodInfo.NullabilityPayload m)
           (Z.shiftl (NullableKind.to_unsigned kind)
                     (index * ObjCMethodInfo.NullableKindSize)).
Proof.
  intros Hi H. apply (addTypeInfo_Done_frame index kind m m' Hi H).
Qed.

Lemma addTypeInfo_changes_payload_only_witness :
  ObjCMethodInfo.NullabilityPayload nullable_return_method =
  Z.lor (ObjCMethodInfo.NullabilityPayload audited_method)
        (Z.shiftl (NullableKind.to_unsigned NullableKind.Nullable)
                  (0 * ObjCMethodInfo.NullableKindSize)).
Proof.
  assert (H0 : 0 <= 0) by lia.
  assert (H : ObjCMethodInfo.addTypeInfo 0 NullableKind.Nullable audited_method
              = Done nullable_return_method) by reflexivity.
  apply (addTypeInfo_changes_payload_only 0 NullableKind.Nullable
           audited_method nullable_return_method H0 H).
Defined.

(** ** Runs of writes *)

(** X4: on an audited record with an empty payload, a run of writes that
    addresses each of some positions among 0 to 15 once, with enumerators,
    all of them within the count, returns; afterwards
    [getReturnTypeInfo] yields what was written to position 0 and
    [getParamTypeInfo i] what was written to position [i + 1]. *)
Theorem written_positions_read_back (writes : list (Z * NullableKind.t))
        (m : ObjCMethodInfo.t) :
  ObjCMethodInfo.NullabilityAudited m <> 0 ->
  ObjCMethodInfo.NullabilityPayload m = 0 ->
  Forall low_write writes ->
  NoDup (map fst writes) ->
  (forall w, In w writes -> fst w <= ObjCMethodInfo.NumAdjustedNullable m) ->
  exists m',
    addTypeInfos writes m = Done m'
    /\ (forall kind, In (0, kind) writes ->
          ObjCMethodInfo.getReturnTypeInfo m' = Done kind)
    /\ (forall i kind, 0 <= i -> In (i + 1, kind) writes ->
          ObjCMethodInfo.getParamTypeInfo i m' = Done kind).
Proof.
  intros Ha Hz Hall Hnd Hcount.
  destruct (low_positions_round_trip writes m Ha Hz Hall Hnd Hcount)
    as (m' & Hrun & Hread).
  exists m'. split; [exact Hrun | split].
  - intros kind Hin. apply Hread, Hin.
  - intros i kind Hi Hin.
    assert (Hlow : low_write (i + 1, kind))
      by (apply (proj1 (Forall_forall low_write writes) Hall), Hin).
    destruct Hlow as [Hp _]. simpl in Hp.
    rewrite getParamTypeInfo_position
      by (unfold UINT_MAX, unsigned_bits; simpl; lia).
    apply Hread, Hin.
Qed.

Lemma written_positions_read_back_witness :
  exists m',
    addTypeInfos [(0, NullableKind.Nullable); (1, NullableKind.Unknown)]
                 (ObjCMethodInfo.set_NumAdjustedNullable 1 audited_method)
    = Done m'
    /\ ObjCMethodInfo.getReturnTypeInfo m' = Done NullableKind.Nullable
    /\ ObjCMethodInfo.getParamTypeInfo 0 m' = Done NullableKind.Unknown.
Proof.
  destruct (written_positions_read_back
              [(0, NullableKind.Nullable); (1, NullableKind.Unknown)]
              (ObjCMethodInfo.set_NumAdjustedNullable 1 audited_method))
    as (m' & Hrun & Hret & Hpar).
  - intros H. discriminate H.
  - reflexivity.
  - repeat constructor; simpl; lia.
  - repeat constructor; simpl; intros H; intuition discriminate.
  - intros w [<- | [<- | []]]; vm_compute; intros H; discriminate H.
  - exists m'. split; [exact Hrun | split].
    + apply Hret. left. reflexivity.
    + apply (Hpar 0); [lia | right; left; reflexivity].
Defined.

(** X5: the order of a run of writes to positions 0 to 15 does not matter:
    on an audited record two runs that are permutations of each other end
    in the same record. *)
Theorem addTypeInfos_order_irrelevant (ws1 ws2 : list (Z * NullableKind.t)) :
  Permutation ws1 ws2 ->
  forall m : ObjCMethodInfo.t,
    Forall low_write ws1 ->
    ObjCMethodInfo.NullabilityAudited m <> 0 ->
    addTypeInfos ws1 m = addTypeInfos ws2 m.
Proof.
  induction 1 as [| [index kind] l l' Hperm IH
                  | [i1 k1] [i2 k2] l
                  | l l' l'' H1 IH1 H2 IH2]; intros m Hall Ha.
  - reflexivity.
  - inversion Hall as [|? ? [Hi Hk] Hrest]; subst. simpl in Hi, Hk.
    simpl. rewrite addTypeInfo_low by assumption. simpl.
    apply IH; [exact Hrest | exact Ha].
  - inversion Hall as [|? ? [Hi1 Hk1] Hrest]; subst.
    inversion Hrest as [|? ? [Hi2 Hk2] _]; subst.
    simpl in Hi1, Hk1, Hi2, Hk2. simpl.
    rewrite (addTypeInfo_low i1), (addTypeInfo_low i2) by assumption. simpl.
    rewrite (addTypeInfo_low i1), (addTypeInfo_low i2) by assumption. simpl.
    rewrite or_kindValue_comm. reflexivity.
  - rewrite IH1 by assumption.
    apply IH2; [| exact Ha].
    apply (Permutation_Forall H1), Hall.
Qed.

Lemma addTypeInfos_order_irrelevant_witness :
  addTypeInfos [(1, NullableKind.Unknown); (0, NullableKind.Nullable)] audited_method
  = addTypeInfos [(0, NullableKind.Nullable); (1, NullableKind.Unknown)] audited_method.
Proof.
  apply (addTypeInfos_order_irrelevant
           [(1, NullableKind.Unknown); (0, NullableKind.Nullable)]
           [(0, NullableKind.Nullable); (1, NullableKind.Unknown)]
           (perm_swap _ _ [])).
  - repeat constructor; simpl; lia.
  - intros H. discriminate H.
Defined.

(** X6: repeating a call changes nothing: [addTypeInfo index kind] called
    twice in a row gives what one call gives, whether that is a record, a
    failed assertion or no defined result. *)
Theorem addTypeInfo_twice (index : Z) (kind : NullableKind.t)
        (m : ObjCMethodInfo.t) :
  addTypeInfos [(index, kind); (index, kind)] m
  = ObjCMethodInfo.addTypeInfo index kind m.
Proof.
  simpl. destruct (ObjCMethodInfo.addTypeInfo index kind m) as [m1 | |] eqn:E;
    try reflexivity.
  simpl. revert E. unfold ObjCMethodInfo.addTypeInfo.
  destruct (negb _); [discriminate |].
  destruct (negb _); [discriminate |].
  destruct (ObjCMethodInfo.NullabilityAudited m =? 0) eqn:Ha; [discriminate |].
  destruct (shl_unsigned _ _) as [kindValue |]; [| discriminate].
  intros E. injection E as <-. simpl. rewrite Ha. simpl.
  rewrite or_kindValue_twice. reflexivity.
Qed.

(** X7: writing [NonNullable] changes nothing: at positions 0 to 15 of an
    audited record the call returns the record it was given, so a position
    that holds another value cannot be set back to [NonNullable]. *)
Theorem addTypeInfo_NonNullable_is_noop (index : Z) (m : ObjCMethodInfo.t) :
  0 <= index < 16 ->
  ObjCMethodInfo.NullabilityAudited m <> 0 ->
  ObjCMethodInfo.addTypeInfo index NullableKind.NonNullable m = Done m.
Proof.
  intros Hi Ha. rewrite addTypeInfo_low by (assumption || reflexivity).
  simpl NullableKind.to_unsigned. rewrite Z.shiftl_0_l, or_kindValue_0.
  reflexivity.
Qed.

Lemma addTypeInfo_NonNullable_is_noop_witness :
  ObjCMethodInfo.addTypeInfo 1 NullableKind.NonNullable busy_method
  = Done busy_method.
Proof.
  apply (addTypeInfo_NonNullable_is_noop 1 busy_method).
  - lia.
  - intros H. discriminate H.
Defined.

(** X8: [addTypeInfo] never clears a bit of the payload: a bit that was
    set before a call that returns is set after it. *)
Theorem addTypeInfo_never_clears (index : Z) (kind : NullableKind.t)
        (m m' : ObjCMethodInfo.t) (n : Z) :
  ObjCMethodInfo.addTypeInfo index kind m = Done m' ->
  Z.testbit (ObjCMethodInfo.NullabilityPayload m) n = true ->
  Z.testbit (ObjCMethodInfo.NullabilityPayload m') n = true.
Proof.
  intros H Hb.
  destruct (addTypeInfo_Done_inv index kind m m' H) as (_ & kindValue & _ & ->).
  simpl. rewrite Z.lor_spec, Hb. reflexivity.
Qed.

Lemma addTypeInfo_never_clears_witness :
  exists m',
    ObjCMethodInfo.addTypeInfo 1 NullableKind.Unknown nullable_return_method
    = Done m'
    /\ Z.testbit (ObjCMethodInfo.NullabilityPayload nullable_return_method) 0 = true
    /\ Z.testbit (ObjCMethodInfo.NullabilityPayload m') 0 = true.
Proof.
  eexists. split; [reflexivity | split; [reflexivity |]].
  apply (addTypeInfo_never_clears 1 NullableKind.Unknown
           nullable_return_method _ 0); reflexivity.
Defined.

(** ** The payload that writes can build, and what reads make of it *)

Section PayloadReach.

Import ObjCMethodInfo.

Lemma addTypeInfos_Done_inv (writes : list (Z * NullableKind.t)) :
  forall m m' : ObjCMethodInfo.t,
    addTypeInfos writes m = Done m' ->
    NullabilityAudited m' = NullabilityAudited m
    /\ NumAdjustedNullable m' = NumAdjustedNullable m
    /\ (0 <= NullabilityPayload m < 2 ^ unsigned_bits ->
        0 <= NullabilityPayload m' < 2 ^ unsigned_bits).
Proof.
  induction writes as [|[index kind] rest IH]; intros m m' H; simpl in H.
  - injection H as <-. repeat split; tauto.
  - destruct (addTypeInfo index kind m) as [m1 | |] eqn:E; try discriminate H.
    simpl in H.
    destruct (addTypeInfo_Done_inv index kind m m1 E) as (_ & kv & Hkv & ->).
    destruct (IH _ _ H) as (Haud & Hnum & Hpay). simpl in Haud, Hnum, Hpay.
    split; [exact Haud | split; [exact Hnum |]].
    intros Hm. apply Hpay. apply (lor_below_pow2 unsigned_bits); assumption.
Qed.

Lemma payload_field_high_0 (p payload : Z) :
  16 <= p -> 0 <= payload < 2 ^ unsigned_bits -> payload_field p payload = 0.
Proof.
  intros Hp Hx. apply Z.bits_inj'. intros n Hn.
  rewrite testbit_payload_field, Z.bits_0 by lia.
  unfold NullableKindSize.
  rewrite (testbit_below_pow2 unsigned_bits payload)
    by (exact Hx || (unfold unsigned_bits; lia)).
  reflexivity.
Qed.

End PayloadReach.

(** X9: writes never reach the upper half of the payload.  On an audited
    record whose payload fits 32 bits (the constructed record's is 0), any
    run of [addTypeInfo] calls that returns leaves a payload that fits 32
    bits, and positions 16 to 31 then read as [NonNullable] whatever the
    run wrote. *)
Theorem writes_stay_in_low_half (writes : list (Z * NullableKind.t))
        (m m' : ObjCMethodInfo.t) :
  ObjCMethodInfo.NullabilityAudited m <> 0 ->
  0 <= ObjCMethodInfo.NullabilityPayload m < 2 ^ unsigned_bits ->
  addTypeInfos writes m = Done m' ->
  0 <= ObjCMethodInfo.NullabilityPayload m' < 2 ^ unsigned_bits
  /\ forall p : Z, 16 <= p < 32 ->
       ObjCMethodInfo.getTypeInfo p m' = Done NullableKind.NonNullable.
Proof.
  intros Ha Hm Hrun.
  destruct (addTypeInfos_Done_inv writes m m' Hrun) as (Haud & Hnum & Hpay).
  specialize (Hpay Hm). split; [exact Hpay |]. intros p Hp.
  destruct (Z.ltb_spec (ObjCMethodInfo.NumAdjustedNullable m') p) as [Hlt | Hge].
  - apply getTypeInfo_beyond_count; [rewrite Haud; exact Ha | exact Hlt].
  - rewrite getTypeInfo_within_count by (try lia; rewrite Haud; exact Ha).
    rewrite payload_field_high_0 by (lia || exact Hpay). reflexivity.
Qed.

Lemma writes_stay_in_low_half_witness :
  addTypeInfos [(0, NullableKind.Nullable)] audited_method_31
  = Done (ObjCMethodInfo.or_kindValue 1 audited_method_31)
  /\ ObjCMethodInfo.getTypeInfo 16 (ObjCMethodInfo.or_kindValue 1 audited_method_31)
     = Done NullableKind.NonNullable.
Proof.
  assert (Ha : ObjCMethodInfo.NullabilityAudited audited_method_31 <> 0)
    by (intros H; discriminate H).
  assert (Hm : 0 <= ObjCMethodInfo.NullabilityPayload audited_method_31
               < 2 ^ unsigned_bits)
    by (split; [intros H; discriminate H | reflexivity]).
  assert (Hrun : addTypeInfos [(0, NullableKind.Nullable)] audited_method_31
                 = Done (ObjCMethodInfo.or_kindValue 1 audited_method_31))
    by reflexivity.
  split; [exact Hrun |].
  apply (proj2 (writes_stay_in_low_half _ _ _ Ha Hm Hrun)). lia.
Defined.

(** X10: which reads are defined.  On an audited record whose count is a
    value of its 8-bit field, [getTypeInfo index], for an index that is an
    [unsigned], shifts the payload by 64 bits or more, which has no
    defined result, exactly when [32 <= index <= NumAdjustedNullable]; in
    particular every read returns a value when the count is at most 31. *)
Theorem getTypeInfo_undefined_exactly (index : Z) (m : ObjCMethodInfo.t) :
  ObjCMethodInfo.NullabilityAudited m <> 0 ->
  0 <= ObjCMethodInfo.NumAdjustedNullable m < 2 ^ 8 ->
  0 <= index ->
  (ObjCMethodInfo.getTypeInfo index m = Undefined <->
   32 <= index <= ObjCMethodInfo.NumAdjustedNullable m)
  /\ (ObjCMethodInfo.NumAdjustedNullable m <= 31 ->
      exists kind, ObjCMethodInfo.getTypeInfo index m = Done kind).
Proof.
  intros Ha Hn Hi. change (2 ^ 8) with 256 in Hn.
  destruct (Z.ltb_spec (ObjCMethodInfo.NumAdjustedNullable m) index) as [Hlt | Hge].
  - rewrite getTypeInfo_beyond_count by assumption. split.
    + split; [intros H; discriminate H | lia].
    + intros _. eexists. reflexivity.
  - destruct (Z.ltb_spec index 32) as [H32 | H32].
    + rewrite getTypeInfo_within_count by (assumption || lia). split.
      * split; [intros H; discriminate H | lia].
      * intros _. eexists. reflexivity.
    + assert (E : ObjCMethodInfo.getTypeInfo index m = Undefined).
      { unfold ObjCMethodInfo.getTypeInfo.
        apply Z.eqb_neq in Ha. rewrite Ha.
        replace (ObjCMethodInfo.NumAdjustedNullable m <? index) with false
          by (symmetry; apply Z.ltb_ge; lia).
        unfold mul_unsigned, wrap, unsigned_bits, ObjCMethodInfo.NullableKindSize.
        rewrite Z.mod_small by lia.
        unfold shr_uint64, uint64_bits.
        replace (index * 2 <? 64) with false by (symmetry; apply Z.ltb_ge; lia).
        reflexivity. }
      rewrite E. split; [split; [lia | reflexivity] | lia].
Qed.

Lemma getTypeInfo_undefined_exactly_witness :
  ObjCMethodInfo.getTypeInfo 32
    (ObjCMethodInfo.set_NumAdjustedNullable 40 audited_method) = Undefined.
Proof.
  assert (Ha : ObjCMethodInfo.NullabilityAudited
                 (ObjCMethodInfo.set_NumAdjustedNullable 40 audited_method) <> 0)
    by (intros H; discriminate H).
  assert (Hn : 0 <= ObjCMethodInfo.NumAdjustedNullable
                      (ObjCMethodInfo.set_NumAdjustedNullable 40 audited_method)
               < 2 ^ 8)
    by (split; [intros H; discriminate H | reflexivity]).
  assert (Hi : 0 <= 32) by lia.
  apply (proj1 (getTypeInfo_undefined_exactly 32 _ Ha Hn Hi)).
  split; [lia | intros H; discriminate H].
Defined.

(** X11: a read within the count decodes the payload.  On an audited
    record whose count is not negative, [getReturnTypeInfo] never takes the
    fallback: it decodes the two lowest bits of the payload, even when the
    count is 0; and [getParamTypeInfo i] decodes bits [2 * (i + 1)] and
    [2 * (i + 1) + 1] for every parameter with [i + 1] up to and including
    the count (and below 32). *)
Theorem reads_within_count_decode_payload (m : ObjCMethodInfo.t) :
  ObjCMethodInfo.NullabilityAudited m <> 0 ->
  0 <= ObjCMethodInfo.NumAdjustedNullable m ->
  ObjCMethodInfo.getReturnTypeInfo m
  = Done (NullableKind.of_unsigned
            (Z.land (ObjCMethodInfo.NullabilityPayload m) 3))
  /\ forall i : Z,
       0 <= i -> i + 1 <= ObjCMethodInfo.NumAdjustedNullable m -> i + 1 < 32 ->
       ObjCMethodInfo.getParamTypeInfo i m
       = Done (NullableKind.of_unsigned
                 (Z.land (Z.shiftr (ObjCMethodInfo.NullabilityPayload m)
                                   (2 * (i + 1))) 3)).
Proof.
  intros Ha Hn. split.
  - unfold ObjCMethodInfo.getReturnTypeInfo.
    rewrite getTypeInfo_within_count by (assumption || lia).
    unfold payload_field. rewrite Z.mul_0_l, Z.shiftr_0_r. reflexivity.
  - intros i Hi Hc H32.
    rewrite getParamTypeInfo_position
      by (unfold UINT_MAX, unsigned_bits; simpl; lia).
    rewrite getTypeInfo_within_count by (assumption || lia).
    unfold payload_field, ObjCMethodInfo.NullableKindSize.
    rewrite (Z.mul_comm (i + 1) 2). reflexivity.
Qed.

Lemma reads_within_count_decode_payload_witness :
  ObjCMethodInfo.getReturnTypeInfo busy_method = Done NullableKind.Nullable
  /\ ObjCMethodInfo.getParamTypeInfo 0 busy_method = Done NullableKind.Nullable
  /\ ObjCMethodInfo.getParamTypeInfo 1 busy_method = Done NullableKind.NonNullable.
Proof.
  assert (Ha : ObjCMethodInfo.NullabilityAudited busy_method <> 0)
    by (intros H; discriminate H).
  assert (Hn : 0 <= ObjCMethodInfo.NumAdjustedNullable busy_method)
    by (intros H; discriminate H).
  destruct (reads_within_count_decode_payload busy_method Ha Hn) as [Hret Hpar].
  split; [exact Hret | split].
  - apply (Hpar 0); [lia | intros H; discriminate H | lia].
  - apply (Hpar 1); [lia | intros H; discriminate H | lia].
Defined.

(** X12: what one write does to the reads.  After a call of [addTypeInfo]
    at position [p] that returns, the read of any other position below 32
    is what it was before; the read of [p] itself, when [p] is within the
    count, decodes the OR of what the field held and the value written. *)
Theorem addTypeInfo_read_back (p q : Z) (kind : NullableKind.t)
        (m m' : ObjCMethodInfo.t) :
  0 <= p ->
  ObjCMethodInfo.addTypeInfo p kind m = Done m' ->
  0 <= q < 32 ->
  (q <> p -> ObjCMethodInfo.getTypeInfo q m' = ObjCMethodInfo.getTypeInfo q m)
  /\ (q = p ->
      q <= ObjCMethodInfo.NumAdjustedNullable m ->
      ObjCMethodInfo.getTypeInfo q m'
      = Done (NullableKind.of_unsigned
                (Z.lor (payload_field q (ObjCMethodInfo.NullabilityPayload m))
                       (NullableKind.to_unsigned kind)))).
Proof.
  intros Hp H Hq.
  destruct (addTypeInfo_Done_inv p kind m m' H) as (Ha & _).
  destruct (addTypeInfo_Done_frame p kind m m' Hp H)
    as (Hp16 & _ & _ & _ & _ & Haud & Hnum & Hpay).
  assert (Ha' : ObjCMethodInfo.NullabilityAudited m' <> 0)
    by (rewrite Haud; exact Ha).
  assert (Hfield :
            payload_field q (ObjCMethodInfo.NullabilityPayload m') =
            if q =? p
            then Z.lor (payload_field q (ObjCMethodInfo.NullabilityPayload m))
                       (NullableKind.to_unsigned kind)
            else payload_field q (ObjCMethodInfo.NullabilityPayload m)).
  { rewrite Hpay. apply payload_field_lor_shiftl;
      [lia | lia | apply to_unsigned_range]. }
  split.
  - intros Hne.
    destruct (Z.ltb_spec (ObjCMethodInfo.NumAdjustedNullable m) q) as [Hlt | Hge].
    + rewrite !getTypeInfo_beyond_count by (assumption || lia). reflexivity.
    + rewrite !getTypeInfo_within_count by (assumption || lia).
      rewrite Hfield. apply Z.eqb_neq in Hne. rewrite Hne. reflexivity.
  - intros -> Hc.
    rewrite getTypeInfo_within_count by (assumption || lia).
    rewrite Hfield, Z.eqb_refl. reflexivity.
Qed.

Lemma addTypeInfo_read_back_witness :
  ObjCMethodInfo.getTypeInfo 1 nullable_return_method
  = ObjCMethodInfo.getTypeInfo 1 audited_method.
Proof.
  assert (H0 : 0 <= 0) by lia.
  assert (H : ObjCMethodInfo.addTypeInfo 0 NullableKind.Nullable audited_method
              = Done nullable_return_method) by reflexivity.
  assert (Hq : 0 <= 1 < 32) by lia.
  apply (proj1 (addTypeInfo_read_back 0 1 NullableKind.Nullable
                  audited_method nullable_return_method H0 H Hq)).
  intros E. discriminate E.
Defined.

(** X13: two writes to one position accumulate.  On an audited record, at
    a position from 0 to 15 within the count whose field is empty, writing
    [k1] and then [k2] returns, and the position then reads as the value
    whose bits are the OR of the two; for [Nullable] and [Unknown] that is
    the value 3, which is none of the three enumerators. *)
Theorem two_writes_accumulate (p : Z) (k1 k2 : NullableKind.t)
        (m : ObjCMethodInfo.t) :
  0 <= p < 16 ->
  p <= ObjCMethodInfo.NumAdjustedNullable m ->
  ObjCMethodInfo.NullabilityAudited m <> 0 ->
  payload_field p (ObjCMethodInfo.NullabilityPayload m) = 0 ->
  NullableKind.is_enumerator k1 = true ->
  NullableKind.is_enumerator k2 = true ->
  exists m',
    addTypeInfos [(p, k1); (p, k2)] m = Done m'
    /\ ObjCMethodInfo.getTypeInfo p m'
       = Done (NullableKind.of_unsigned
                 (Z.lor (NullableKind.to_unsigned k1) (NullableKind.to_unsigned k2)))
    /\ (k1 = NullableKind.Nullable -> k2 = NullableKind.Unknown ->
        ObjCMethodInfo.getTypeInfo p m' = Done NullableKind.Raw3).
Proof.
  intros Hp Hc Ha Hz Hk1 Hk2.
  pose proof (addTypeInfo_low p k1 m Hp Hk1 Ha) as E1.
  set (m1 := ObjCMethodInfo.or_kindValue
               (Z.shiftl (NullableKind.to_unsigned k1)
                         (p * ObjCMethodInfo.NullableKindSize)) m) in E1.
  assert (Ha1 : ObjCMethodInfo.NullabilityAudited m1 <> 0) by exact Ha.
  pose proof (addTypeInfo_low p k2 m1 Hp Hk2 Ha1) as E2.
  set (m2 := ObjCMethodInfo.or_kindValue
               (Z.shiftl (NullableKind.to_unsigned k2)
                         (p * ObjCMethodInfo.NullableKindSize)) m1) in E2.
  assert (Hread :
            ObjCMethodInfo.getTypeInfo p m2
            = Done (NullableKind.of_unsigned
                      (Z.lor (NullableKind.to_unsigned k1)
                             (NullableKind.to_unsigned k2)))).
  { rewrite getTypeInfo_within_count;
      [| exact Ha | split; [lia | exact Hc] | lia].
    unfold m2, m1. simpl ObjCMethodInfo.NullabilityPayload.
    rewrite !payload_field_lor_shiftl by (try apply to_unsigned_range; lia).
    rewrite Z.eqb_refl, Hz, Z.lor_0_l. reflexivity. }
  exists m2. split; [| split].
  - simpl. rewrite E1. simpl. rewrite E2. reflexivity.
  - exact Hread.
  - intros -> ->. exact Hread.
Qed.

Lemma two_writes_accumulate_witness :
  exists m',
    addTypeInfos [(1, NullableKind.Nullable); (1, NullableKind.Unknown)]
                 (ObjCMethodInfo.set_NumAdjustedNullable 1 audited_method)
    = Done m'
    /\ ObjCMethodInfo.getTypeInfo 1 m' = Done NullableKind.Raw3.
Proof.
  destruct (two_writes_accumulate 1 NullableKind.Nullable NullableKind.Unknown
              (ObjCMethodInfo.set_NumAdjustedNullable 1 audited_method))
    as (m' & Hrun & _ & Hraw).
  - lia.
  - intros H. discriminate H.
  - intros H. discriminate H.
  - reflexivity.
  - reflexivity.
  - reflexivity.
  - exists m'. split; [exact Hrun | apply Hraw; reflexivity].
Defined.

(** ** The classification accessors *)

(** X14: [setFactoryAsInitKind] overwrites.  The constructed record is
    classified [Infer]; after [setFactoryAsInitKind kind],
    [getFactoryAsInitKind] yields [kind]; of two calls in a row the last
    one wins; the call changes no other field, so every nullability read
    is as before; and it commutes with [addTypeInfo]. *)
Theorem factory_kind_set_get :
  ObjCMethodInfo.getFactoryAsInitKind ObjCMethodInfo.ctor
  = inl FactoryAsInitKind.Infer
  /\ (forall (kind : FactoryAsInitKind.t) (m : ObjCMethodInfo.t),
        ObjCMethodInfo.getFactoryAsInitKind
          (ObjCMethodInfo.setFactoryAsInitKind kind m) = inl kind)
  /\ (forall (k1 k2 : FactoryAsInitKind.t) (m : ObjCMethodInfo.t),
        ObjCMethodInfo.setFactoryAsInitKind k2
          (ObjCMethodInfo.setFactoryAsInitKind k1 m)
        = ObjCMethodInfo.setFactoryAsInitKind k2 m)
  /\ (forall (kind : FactoryAsInitKind.t) (m : ObjCMethodInfo.t),
        ObjCMethodInfo.setFactoryAsInitKind kind m
        = ObjCMethodInfo.mk
            (ObjCMethodInfo.DesignatedInit m)
            (FactoryAsInitKind.to_unsigned kind)
            (ObjCMethodInfo.Unavailable m)
            (ObjCMethodInfo.NullabilityAudited m)
            (ObjCMethodInfo.NumAdjustedNullable m)
            (ObjCMethodInfo.NullabilityPayload m)
            (ObjCMethodInfo.UnavailableMsg m))
  /\ (forall (kind : FactoryAsInitKind.t) (index : Z) (m : ObjCMethodInfo.t),
        ObjCMethodInfo.getTypeInfo index
          (ObjCMethodInfo.setFactoryAsInitKind kind m)
        = ObjCMethodInfo.getTypeInfo index m)
  /\ (forall (kind : FactoryAsInitKind.t) (index : Z) (k : NullableKind.t)
             (m : ObjCMethodInfo.t),
        ObjCMethodInfo.addTypeInfo index k
          (ObjCMethodInfo.setFactoryAsInitKind kind m)
        = bind (ObjCMethodInfo.addTypeInfo index k m)
               (fun m' => Done (ObjCMethodInfo.setFactoryAsInitKind kind m'))).
Proof.
  split; [reflexivity |].
  split; [intros kind m; destruct kind; reflexivity |].
  split; [intros k1 k2 m; reflexivity |].
  split; [intros kind m; destruct kind; reflexivity |].
  split; [intros kind index m; reflexivity |].
  intros kind index k m. unfold ObjCMethodInfo.addTypeInfo.
  simpl ObjCMethodInfo.NullabilityAudited.
  destruct (negb _); [reflexivity |].
  destruct (negb _); [reflexivity |].
  destruct (ObjCMethodInfo.NullabilityAudited m =? 0); [reflexivity |].
  destruct (shl_unsigned _ _); reflexivity.
Qed.

(** ** Equality and the getters of the class and property records *)

Section ClassEqualityByGetter.

Import ObjCClassInfo.

Lemma class_eqb_getter (a b : ObjCClassInfo.t) :
  reachable a -> reachable b ->
  (eqb a b = true <-> getDefaultNullability a = getDefaultNullability b).
Proof.
  intros Ra Rb. rewrite class_eqb_eq.
  split; [intros ->; reflexivity |].
  destruct (class_reachable_shape a Ra) as [-> | [Fa Va]];
    destruct (class_reachable_shape b Rb) as [-> | [Fb Vb]];
    try reflexivity; unfold getDefaultNullability; try rewrite Fa; try rewrite Fb;
    simpl; try discriminate.
  intros H. injection H as H.
  destruct a as [fa va], b as [fb vb]; simpl in *. subst fa fb. f_equal.
  assert (Hc : forall x, 0 <= x < 4 -> x = 0 \/ x = 1 \/ x = 2 \/ x = 3)
    by (intros; lia).
  destruct (Hc va Va) as [-> | [-> | [-> | ->]]];
    destruct (Hc vb Vb) as [-> | [-> | [-> | ->]]];
    try reflexivity; discriminate H.
Qed.

End ClassEqualityByGetter.

(** X15: on ClassAnnotation and PropertyAnnotation instances (the
    constructor followed by any setter calls) [operator==] holds exactly
    when the getter returns the same optional value on both, and
    [operator!=] exactly when it does not. *)
Theorem instances_equal_iff_getters_agree (kinds1 kinds2 : list NullableKind.t) :
  (ObjCClassInfo.eqb (class_after_calls kinds1) (class_after_calls kinds2) = true
   <-> ObjCClassInfo.getDefaultNullability (class_after_calls kinds1)
       = ObjCClassInfo.getDefaultNullability (class_after_calls kinds2))
  /\ (ObjCClassInfo.neqb (class_after_calls kinds1) (class_after_calls kinds2) = true
      <-> ObjCClassInfo.getDefaultNullability (class_after_calls kinds1)
          <> ObjCClassInfo.getDefaultNullability (class_after_calls kinds2))
  /\ (ObjCPropertyInfo.eqb (property_after_calls kinds1) (property_after_calls kinds2)
      = true
      <-> ObjCPropertyInfo.getNullability (property_after_calls kinds1)
          = ObjCPropertyInfo.getNullability (property_after_calls kinds2))
  /\ (ObjCPropertyInfo.neqb (property_after_calls kinds1) (property_after_calls kinds2)
      = true
      <-> ObjCPropertyInfo.getNullability (property_after_calls kinds1)
          <> ObjCPropertyInfo.getNullability (property_after_calls kinds2)).
Proof.
  assert (Hc : ObjCClassInfo.eqb (class_after_calls kinds1) (class_after_calls kinds2)
               = true
               <-> ObjCClassInfo.getDefaultNullability (class_after_calls kinds1)
                   = ObjCClassInfo.getDefaultNullability (class_after_calls kinds2))
    by (apply class_eqb_getter; apply class_reachable_calls; eexists; reflexivity).
  assert (Hp : ObjCPropertyInfo.eqb (property_after_calls kinds1)
                                    (property_after_calls kinds2) = true
               <-> ObjCPropertyInfo.getNullability (property_after_calls kinds1)
                   = ObjCPropertyInfo.getNullability (property_after_calls kinds2))
    by (apply property_eqb_presence_and_value;
        apply property_reachable_calls; eexists; reflexivity).
  split; [exact Hc | split; [| split; [exact Hp |]]].
  - unfold ObjCClassInfo.neqb. rewrite negb_true_iff, <- Hc.
    destruct (ObjCClassInfo.eqb _ _); split; congruence.
  - unfold ObjCPropertyInfo.neqb. rewrite negb_true_iff, <- Hp.
    destruct (ObjCPropertyInfo.eqb _ _); split; congruence.
Qed.

(** X16: on MethodAnnotation [operator==] holds exactly when the two
    records are the same record value, and [operator!=] exactly when they
    are not; both are symmetric. *)
Theorem method_equality_operators (a b : ObjCMethodInfo.t) :
  (ObjCMethodInfo.eqb a b = true <-> a = b)
  /\ (ObjCMethodInfo.neqb a b = true <-> a <> b)
  /\ ObjCMethodInfo.eqb a b = ObjCMethodInfo.eqb b a
  /\ ObjCMethodInfo.neqb a b = ObjCMethodInfo.neqb b a.
Proof.
  assert (Hsym : ObjCMethodInfo.eqb a b = ObjCMethodInfo.eqb b a).
  { destruct (ObjCMethodInfo.eqb a b) eqn:E1, (ObjCMethodInfo.eqb b a) eqn:E2;
      try reflexivity.
    - apply method_eqb_eq in E1. apply method_eqb_neq in E2. congruence.
    - apply method_eqb_neq in E1. apply method_eqb_eq in E2. congruence. }
  split; [apply method_eqb_eq | split; [| split; [exact Hsym |]]].
  - unfold ObjCMethodInfo.neqb. rewrite negb_true_iff. apply method_eqb_neq.
  - unfold ObjCMethodInfo.neqb. rewrite Hsym. reflexivity.
Qed.
